(** * terraform-provider-netbox: provider configuration

    A shallow embedding of [internal/provider/provider.go]: the [Configure]
    method of [netboxProvider], which reads the provider block and the
    process environment, validates and normalises the connection settings and
    builds the NetBox API client.

    [Configure] is one Go function.  The embedding keeps its statements in
    source order and cuts it at the comment that closes its first half
    (line 142, "Create a new NetBox client using the configuration values"):
    [resolve] is lines 45-140, [bootstrap] is lines 142-195, and [Configure]
    decodes the request (lines 38-43) and runs one after the other. *)

From Stdlib Require Import String Ascii List Bool Arith ZArith Lia.
From stdpp Require Import base option gmap strings.

Local Open Scope Z_scope.
Local Open Scope nat_scope.

(** ** Go [strings] helpers *)

Module strings.

(** [strings.HasSuffix(s, suffix)]: [s] ends with [suffix].  The suffixes
    of a string are the string itself and the suffixes of its tail. *)
Fixpoint HasSuffix (s suffix : string) : bool :=
  String.eqb s suffix ||
  match s with
  | EmptyString => false
  | String _ s' => HasSuffix s' suffix
  end.

(** Membership of a byte in a cutset. *)
Fixpoint IndexByte (cutset : string) (c : ascii) : bool :=
  match cutset with
  | EmptyString => false
  | String d cutset' => Ascii.eqb c d || IndexByte cutset' c
  end.

(** [strings.TrimRight(s, cutset)]: [s] without its longest trailing run
    of bytes contained in [cutset]. *)
Fixpoint TrimRight (s cutset : string) : string :=
  match s with
  | EmptyString => EmptyString
  | String c s' =>
      match TrimRight s' cutset with
      | EmptyString => if IndexByte cutset c then EmptyString
                       else String c EmptyString
      | t => String c t
      end
  end.

(** [n] slashes. *)
Fixpoint slashes (n : nat) : string :=
  match n with
  | O => ""
  | S n' => String "/" (slashes n')
  end.

End strings.

(** ** [os.Getenv] *)

(** The process environment is a finite map from names to values;
    [os.Getenv] returns the empty string for a variable that is not set. *)
Definition Getenv (env : gmap string string) (key : string) : string :=
  default "" (env !! key).

(** ** Framework values ([types.String], [types.Bool]) *)

(** A framework attribute value is null, unknown or known. *)
Inductive attr (A : Type) : Type :=
| Null
| Unknown
| Known (a : A).
Arguments Null {A}.
Arguments Unknown {A}.
Arguments Known {A} a.

Definition IsNull {A} (v : attr A) : bool :=
  match v with Null => true | _ => false end.

Definition IsUnknown {A} (v : attr A) : bool :=
  match v with Unknown => true | _ => false end.

(** [ValueString] returns the known value, and the empty string for a null
    or unknown one. *)
Definition ValueString (v : attr string) : string :=
  match v with Known s => s | _ => "" end.

(** [ValueBool] returns the known value, and [false] for a null or unknown
    one. *)
Definition ValueBool (v : attr bool) : bool :=
  match v with Known b => b | _ => false end.

(** [provider_netbox.NetboxModel], the decoded provider block. *)
Record NetboxModel : Type := {
  ApiToken : attr string;
  ServerUrl : attr string;
  StripTrailingSlashesFromUrl : attr bool
}.

(** ** Diagnostics *)

Inductive Severity : Type := SeverityError | SeverityWarning.

Inductive Path : Type := Root (name : string).

Record Diagnostic : Type := {
  severity : Severity;
  attribute : option Path;
  summary : string;
  detail : string
}.

Global Instance Severity_eq_dec : EqDecision Severity.
Proof. solve_decision. Defined.
Global Instance Path_eq_dec : EqDecision Path.
Proof. solve_decision. Defined.
Global Instance Diagnostic_eq_dec : EqDecision Diagnostic.
Proof. solve_decision. Defined.

Definition is_error (d : Diagnostic) : bool :=
  match severity d with SeverityError => true | SeverityWarning => false end.

Definition is_warning (d : Diagnostic) : bool :=
  match severity d with SeverityWarning => true | SeverityError => false end.

Module diag.

(** [Diagnostics.HasError]: some diagnostic has error severity. *)
Definition HasError (diags : list Diagnostic) : bool :=
  existsb is_error diags.

(** [Diagnostics.Contains]. *)
Definition Contains (diags : list Diagnostic) (d : Diagnostic) : bool :=
  existsb (fun d' => bool_decide (d' = d)) diags.

(** [Diagnostics.Append] adds the given diagnostics in order, leaving out
    those the collection already holds. *)
Fixpoint Append (diags new : list Diagnostic) : list Diagnostic :=
  match new with
  | [] => diags
  | d :: new' =>
      Append (if Contains diags d then diags else diags ++ [d]) new'
  end.

Definition NewAttributeErrorDiagnostic (p : Path) (s d : string) : Diagnostic :=
  {| severity := SeverityError; attribute := Some p;
     summary := s; detail := d |}.

Definition NewAttributeWarningDiagnostic (p : Path) (s d : string) : Diagnostic :=
  {| severity := SeverityWarning; attribute := Some p;
     summary := s; detail := d |}.

End diag.

(** ** Logging ([logrus]) *)

Inductive LogValue : Type :=
| LogString (s : string)
| LogStrings (l : list string).

Record LogEntry : Type := {
  Fields : list (string * LogValue);
  Message : string
}.

(** ** Third-party client types

    The runtime, the authentication writer and the API client come from
    [go-openapi] and [go-netbox].  The model records what [Configure]
    passes to their constructors. *)

Record URL : Type := {
  Scheme : string;
  Host : string;
  Path_ : string
}.

Record TLSClientOptions : Type := {
  InsecureSkipVerify : bool
}.

Inductive AuthInfoWriter : Type :=
| APIKeyAuth (name in_ value : string).

(** [http.Transport], reduced to its TLS client configuration. *)
Record RoundTripper : Type := {
  TLSClientConfig : TLSClientOptions
}.

(** [http.Client]; [Timeout] is a [time.Duration], in nanoseconds. *)
Record http_Client : Type := {
  Transport : option RoundTripper;
  Timeout : Z
}.

Definition time_Second : Z := 1000000000.

(** [httptransport.Runtime]: the arguments of [NewWithClient] and the two
    fields [Configure] sets afterwards.  What the library fills in on its
    own account (its debug flag among them) is not part of the model. *)
Record Runtime : Type := {
  rt_Host : string;
  rt_BasePath : string;
  rt_Schemes : list string;
  rt_client : http_Client;
  DefaultAuthentication : option AuthInfoWriter;
  logger_set : bool
}.

Definition NewWithClient (host basePath : string) (schemes : list string)
    (client : http_Client) : Runtime :=
  {| rt_Host := host; rt_BasePath := basePath; rt_Schemes := schemes;
     rt_client := client; DefaultAuthentication := None;
     logger_set := false |}.

(** [transport.DefaultAuthentication = auth] *)
Definition set_DefaultAuthentication (t : Runtime) (auth : AuthInfoWriter) : Runtime :=
  {| rt_Host := rt_Host t; rt_BasePath := rt_BasePath t;
     rt_Schemes := rt_Schemes t; rt_client := rt_client t;
     DefaultAuthentication := Some auth; logger_set := logger_set t |}.

(** [transport.SetLogger(log.StandardLogger())] *)
Definition SetLogger (t : Runtime) : Runtime :=
  {| rt_Host := rt_Host t; rt_BasePath := rt_BasePath t;
     rt_Schemes := rt_Schemes t; rt_client := rt_client t;
     DefaultAuthentication := DefaultAuthentication t; logger_set := true |}.

(** [netboxclient.New(transport, nil)]. *)
Inductive NetBoxAPI : Type :=
| netboxclient_New (transport : Runtime).

(** ** The response and the state [Configure] works on *)

Record ConfigureResponse : Type := {
  Diagnostics : list Diagnostic;
  DataSourceData : option NetBoxAPI;
  ResourceData : option NetBoxAPI
}.

(** The response under construction and the log written so far. *)
Record World : Type := {
  resp : ConfigureResponse;
  logged : list LogEntry
}.

(** How a run of statements ends: it falls through to the next statement,
    it executes [return], it panics, or a loop has used up its fuel. *)
Inductive Res (A : Type) : Type :=
| Next (a : A) (w : World)
| Return (w : World)
| Panic (msg : string) (w : World)
| Diverge.
Arguments Next {A} a w.
Arguments Return {A} w.
Arguments Panic {A} msg w.
Arguments Diverge {A}.

Definition M (A : Type) : Type := World -> Res A.

Global Instance M_ret : MRet M := fun A a w => Next a w.

Global Instance M_bind : MBind M := fun A B k m w =>
  match m w with
  | Next a w' => k a w'
  | Return w' => Return w'
  | Panic msg w' => Panic msg w'
  | Diverge => Diverge
  end.

(** [return] *)
Definition return_ {A} : M A := fun w => Return w.

(** A runtime panic. *)
Definition panic {A} (msg : string) : M A := fun w => Panic msg w.

(** A Go [if] without [else]. *)
Definition when (b : bool) (m : M unit) : M unit :=
  if b then m else mret tt.

Definition set_Diagnostics (f : list Diagnostic -> list Diagnostic) : M unit :=
  fun w =>
    Next tt {| resp := {| Diagnostics := f (Diagnostics (resp w));
                          DataSourceData := DataSourceData (resp w);
                          ResourceData := ResourceData (resp w) |};
               logged := logged w |}.

(** [resp.Diagnostics.Append(diags...)] *)
Definition Diagnostics_Append (diags : list Diagnostic) : M unit :=
  set_Diagnostics (fun ds => diag.Append ds diags).

(** [resp.Diagnostics.AddAttributeError(path, summary, detail)] *)
Definition AddAttributeError (p : Path) (s d : string) : M unit :=
  Diagnostics_Append [diag.NewAttributeErrorDiagnostic p s d].

(** [resp.Diagnostics.AddAttributeWarning(path, summary, detail)] *)
Definition AddAttributeWarning (p : Path) (s d : string) : M unit :=
  Diagnostics_Append [diag.NewAttributeWarningDiagnostic p s d].

(** [if resp.Diagnostics.HasError() { return }] *)
Definition return_if_HasError : M unit :=
  fun w =>
    if diag.HasError (Diagnostics (resp w)) then return_ w else Next tt w.

(** [log.WithFields(fields).Debug(msg)] *)
Definition log_Debug (fields : list (string * LogValue)) (msg : string) : M unit :=
  fun w =>
    Next tt {| resp := resp w;
               logged := logged w ++ [{| Fields := fields; Message := msg |}] |}.

(** [resp.DataSourceData = client; resp.ResourceData = client] *)
Definition set_client (client : NetBoxAPI) : M unit :=
  fun w =>
    Next tt {| resp := {| Diagnostics := Diagnostics (resp w);
                          DataSourceData := Some client;
                          ResourceData := Some client |};
               logged := logged w |}.

(** [fmt.Errorf] builds an error value and has no effect of its own. *)
Definition fmt_Errorf (msg : string) : string := msg.

(** Reading a field through a pointer: a nil pointer panics. *)
Definition deref {A} (p : option A) : M A :=
  match p with
  | Some a => mret a
  | None => panic "invalid memory address or nil pointer dereference"
  end.

(** ** [Configure], first half: lines 45-140 *)

(** The settings the first half hands to the second: the local variables
    [serverUrl], [apiToken] and [stripTrailingSlashesFromUrl]. *)
Record ResolvedConfig : Type := {
  serverUrl : string;
  apiToken : string;
  stripTrailingSlashesFromUrl : bool
}.

(** [for strings.HasSuffix(serverUrl, "/") { serverUrl =
    strings.TrimRight(serverUrl, "/"); trimmed = true }], with a bound on the
    number of iterations; [None] when the bound is reached. *)
Fixpoint strip_loop (fuel : nat) (serverUrl : string) (trimmed : bool)
    : option (string * bool) :=
  if strings.HasSuffix serverUrl "/" then
    match fuel with
    | O => None
    | S fuel' => strip_loop fuel' (strings.TrimRight serverUrl "/") true
    end
  else Some (serverUrl, trimmed).

(** Lines 125-140. *)
Definition strip_trailing_slashes (serverUrl : string) : M string :=
  let trimmed := false in
  match strip_loop (String.length serverUrl) serverUrl trimmed with
  | None => fun _ => Diverge
  | Some (serverUrl, trimmed) =>
      when trimmed
        (AddAttributeWarning (Root "strip_trailing_slashes_from_url")
           "Stripped trailing slashes from the `server_url` parameter"
           "Trailing slashes in the `server_url` parameter lead to problems in most setups, so all trailing slashes were stripped. Use the `strip_trailing_slashes_from_url` parameter to disable this feature or remove all trailing slashes in the `server_url` to disable this warning.") ;;
      mret serverUrl
  end.

Definition resolve (config : NetboxModel) (env : gmap string string)
    : M ResolvedConfig :=
  when (IsUnknown (ServerUrl config))
    (AddAttributeError (Root "server_url")
       "Unknown NetBox Server URL"
       ("The provider cannot create the NetBox API client as there is an unknown configuration value for the NetBox Server URL. " +:+
        "Either target apply the source of the value first, set the value statically in the configuration, or use the NETBOX_SERVER_URL environment variable.")) ;;
  when (IsUnknown (ApiToken config))
    (AddAttributeError (Root "api_token")
       "Unknown NetBox API Token"
       ("The provider cannot create the NetBox API client as there is an unknown configuration value for the NetBox API Token. " +:+
        "Either target apply the source of the value first, set the value statically in the configuration, or use the NETBOX_API_TOKEN environment variable.")) ;;
  when (IsUnknown (StripTrailingSlashesFromUrl config))
    (AddAttributeError (Root "strip_trailing_slashes_from_url") "wip" "wip") ;;
  return_if_HasError ;;
  let serverUrl := Getenv env "NETBOX_SERVER_URL" in
  let apiToken := Getenv env "NETBOX_API_TOKEN" in
  let serverUrl :=
    if negb (IsNull (ServerUrl config)) then ValueString (ServerUrl config)
    else serverUrl in
  when (String.eqb serverUrl "")
    (AddAttributeError (Root "server_url")
       "Missing NetBox Server URL"
       ("The provider cannot create the NetBox API client as there is a missing configuration value for the NetBox Server URL. " +:+
        "Set the host value in the configuration or use the NETBOX_SERVER_URL environment variable. " +:+
        "If either is already set, ensure the value is not empty.")) ;;
  let apiToken :=
    if negb (IsNull (ApiToken config)) then ValueString (ApiToken config)
    else apiToken in
  when (String.eqb apiToken "")
    (AddAttributeError (Root "api_token")
       "Missing NetBox API Token"
       ("The provider cannot create the NetBox API client as there is a missing configuration value for the NetBox API Token. " +:+
        "Set the host value in the configuration or use the NETBOX_API_TOKEN environment variable. " +:+
        "If either is already set, ensure the value is not empty.")) ;;
  let stripTrailingSlashesFromUrlEnv :=
    Getenv env "NETBOX_STRIP_TRAILING_SLASHES_FROM_URL" in
  let stripTrailingSlashesFromUrl := true in
  let stripTrailingSlashesFromUrl :=
    if String.eqb stripTrailingSlashesFromUrlEnv "false" then false
    else stripTrailingSlashesFromUrl in
  let stripTrailingSlashesFromUrl :=
    if negb (IsNull (StripTrailingSlashesFromUrl config))
    then ValueBool (StripTrailingSlashesFromUrl config)
    else stripTrailingSlashesFromUrl in
  return_if_HasError ;;
  serverUrl ← (if stripTrailingSlashesFromUrl
               then strip_trailing_slashes serverUrl
               else mret serverUrl) ;
  mret {| serverUrl := serverUrl; apiToken := apiToken;
          stripTrailingSlashesFromUrl := stripTrailingSlashesFromUrl |}.

(** ** [Configure], second half: lines 142-195 *)

(** A statement that builds a value and drops it, such as a call of
    [fmt.Errorf] whose result is not used. *)
Definition discard {A} (_ : A) : M unit := mret tt.

Section Provider.

(** [urlx.Parse]: a URL pointer (nil on failure) and an error (nil on
    success). *)
Variable urlx_Parse : string -> option URL * option string.

(** [httptransport.TLSTransport]: a transport (nil on failure) and an error
    (nil on success). *)
Variable TLSTransport : TLSClientOptions -> option RoundTripper * option string.

(** [netboxclient.DefaultBasePath]. *)
Variable DefaultBasePath : string.

Definition bootstrap (cfg : ResolvedConfig) : M unit :=
  let serverUrl := serverUrl cfg in
  let apiToken := apiToken cfg in
  log_Debug [("server_url", LogString serverUrl)]
    "Initializing Netbox client" ;;
  when (String.eqb apiToken "")
    (discard (fmt_Errorf "missing netbox API key")) ;;
  let '(parsedURL, urlParseError) := urlx_Parse serverUrl in
  when (bool_decide (urlParseError ≠ None))
    (discard (fmt_Errorf ("error while trying to parse URL: " +:+
                          default "" urlParseError))) ;;
  (* [parsedURL.Scheme] is the first read through the pointer *)
  parsedURL ← deref parsedURL ;
  let desiredRuntimeClientSchemes := [Scheme parsedURL] in
  log_Debug [("host", LogString (Host parsedURL));
             ("schemes", LogStrings desiredRuntimeClientSchemes)]
    "Initializing Netbox Open API runtime client" ;;
  let clientOpts := {| InsecureSkipVerify := true |} in
  let '(trans, err) := TLSTransport clientOpts in
  when (bool_decide (err ≠ None))
    (discard (fmt_Errorf (default "" err))) ;;
  let httpClient := {| Transport := trans;
                       Timeout := (time_Second * 10)%Z |} in
  let transport :=
    NewWithClient (Host parsedURL) (Path_ parsedURL +:+ DefaultBasePath)
      desiredRuntimeClientSchemes httpClient in
  let transport :=
    set_DefaultAuthentication transport
      (APIKeyAuth "Authorization" "header" ("Token " +:+ apiToken)) in
  let transport := SetLogger transport in
  let client := netboxclient_New transport in
  set_client client.

(** ** [Configure] *)

(** [tfsdk.Config]: what [Get] decodes the provider block to, and the
    diagnostics of the decoding. *)
Record ConfigureRequest : Type := {
  Config_Get : NetboxModel * list Diagnostic
}.

Definition Configure (req : ConfigureRequest) (env : gmap string string)
    : M unit :=
  let '(config, diags) := Config_Get req in
  Diagnostics_Append diags ;;
  return_if_HasError ;;
  cfg ← resolve config env ;
  bootstrap cfg.

End Provider.

(** The response and the log [Configure] is called with. *)
Definition World0 : World :=
  {| resp := {| Diagnostics := []; DataSourceData := None;
                ResourceData := None |};
     logged := [] |}.

(** A request whose provider block decodes to [config] without
    diagnostics. *)
Definition decoded (config : NetboxModel) : ConfigureRequest :=
  {| Config_Get := (config, []) |}.

(** ** A stand-in for the third-party functions

    [urlx.Parse], [httptransport.TLSTransport] and
    [netboxclient.DefaultBasePath] are parameters of the model.  The
    instance below is used to run [Configure] on concrete inputs: the
    parser rejects the empty string and a string with a space in it (the
    Go URL parser refuses a space in a host name) and otherwise splits
    [scheme://host/path], with [http] as the default scheme; the transport
    factory keeps the options it is given. *)

Module Sample.

Fixpoint has_space (s : string) : bool :=
  match s with
  | EmptyString => false
  | String c s' => Ascii.eqb c " " || has_space s'
  end.

(** [s] cut at the first occurrence of [sep], when there is one. *)
Definition cut (s sep : string) : option (string * string) :=
  match String.index 0 sep s with
  | Some i =>
      Some (String.substring 0 i s,
            String.substring (i + String.length sep)
              (String.length s - (i + String.length sep)) s)
  | None => None
  end.

Definition urlx_Parse (rawURL : string) : option URL * option string :=
  if String.eqb rawURL "" then (None, Some "empty url")
  else if has_space rawURL then
    (None, Some "invalid character in host name")
  else
    let '(scheme, rest) := default ("http", rawURL) (cut rawURL "://") in
    match String.index 0 "/" rest with
    | Some i =>
        (Some {| Scheme := scheme;
                 Host := String.substring 0 i rest;
                 Path_ := String.substring i (String.length rest - i) rest |},
         None)
    | None => (Some {| Scheme := scheme; Host := rest; Path_ := "" |}, None)
    end.

Definition TLSTransport (opts : TLSClientOptions)
    : option RoundTripper * option string :=
  (Some {| TLSClientConfig := opts |}, None).

Definition DefaultBasePath : string := "/api".

Definition Configure : ConfigureRequest -> gmap string string -> M unit :=
  Configure urlx_Parse TLSTransport DefaultBasePath.

Definition bootstrap : ResolvedConfig -> M unit :=
  bootstrap urlx_Parse TLSTransport DefaultBasePath.

End Sample.

(** ** Vocabulary of the statements *)

(** The value lines 74-79 leave in [serverUrl], and lines 75 and 91-93 in
    [apiToken]: the attribute unless it is null, else the environment
    variable. *)
Definition selected (v : attr string) (env : gmap string string)
    (key : string) : string :=
  if negb (IsNull v) then ValueString v else Getenv env key.

(** The value lines 105-113 leave in [stripTrailingSlashesFromUrl]. *)
Definition selected_strip (v : attr bool) (env : gmap string string) : bool :=
  if negb (IsNull v) then ValueBool v
  else negb (String.eqb
               (Getenv env "NETBOX_STRIP_TRAILING_SLASHES_FROM_URL") "false").

(** The world [Configure] starts in, with the given diagnostics recorded. *)
Definition with_Diagnostics (ds : list Diagnostic) : World :=
  {| resp := {| Diagnostics := ds; DataSourceData := None;
                ResourceData := None |};
     logged := [] |}.

(** The diagnostics recorded when a run of statements ends. *)
Definition diagnostics_of {A} (r : Res A) : list Diagnostic :=
  match r with
  | Next _ w | Return w | Panic _ w => Diagnostics (resp w)
  | Diverge => []
  end.

(** The five diagnostics of lines 45-140, by the line that adds them. *)
Definition Unknown_ServerUrl : Diagnostic :=
  {| severity := SeverityError;
     attribute := Some (Root "server_url");
     summary := "Unknown NetBox Server URL";
     detail := "The provider cannot create the NetBox API client as there is an unknown configuration value for the NetBox Server URL. Either target apply the source of the value first, set the value statically in the configuration, or use the NETBOX_SERVER_URL environment variable." |}.

Definition Unknown_ApiToken : Diagnostic :=
  {| severity := SeverityError;
     attribute := Some (Root "api_token");
     summary := "Unknown NetBox API Token";
     detail := "The provider cannot create the NetBox API client as there is an unknown configuration value for the NetBox API Token. Either target apply the source of the value first, set the value statically in the configuration, or use the NETBOX_API_TOKEN environment variable." |}.

Definition Unknown_StripTrailingSlashesFromUrl : Diagnostic :=
  {| severity := SeverityError;
     attribute := Some (Root "strip_trailing_slashes_from_url");
     summary := "wip";
     detail := "wip" |}.

Definition Missing_ServerUrl : Diagnostic :=
  {| severity := SeverityError;
     attribute := Some (Root "server_url");
     summary := "Missing NetBox Server URL";
     detail := "The provider cannot create the NetBox API client as there is a missing configuration value for the NetBox Server URL. Set the host value in the configuration or use the NETBOX_SERVER_URL environment variable. If either is already set, ensure the value is not empty." |}.

Definition Missing_ApiToken : Diagnostic :=
  {| severity := SeverityError;
     attribute := Some (Root "api_token");
     summary := "Missing NetBox API Token";
     detail := "The provider cannot create the NetBox API client as there is a missing configuration value for the NetBox API Token. Set the host value in the configuration or use the NETBOX_API_TOKEN environment variable. If either is already set, ensure the value is not empty." |}.

Definition Stripped : Diagnostic :=
  {| severity := SeverityWarning;
     attribute := Some (Root "strip_trailing_slashes_from_url");
     summary := "Stripped trailing slashes from the `server_url` parameter";
     detail := "Trailing slashes in the `server_url` parameter lead to problems in most setups, so all trailing slashes were stripped. Use the `strip_trailing_slashes_from_url` parameter to disable this feature or remove all trailing slashes in the `server_url` to disable this warning." |}.

(** The panic of a read through a nil pointer. *)
Definition nil_dereference : string :=
  "invalid memory address or nil pointer dereference".

(** A run of statements ends, whatever the state it starts in. *)
Definition terminates {A} (m : M A) : Prop :=
  forall w, m w <> Diverge.

(** A world with further diagnostics appended to its response. *)
Definition add_Diagnostics (w : World) (ds : list Diagnostic) : World :=
  {| resp := {| Diagnostics := diag.Append (Diagnostics (resp w)) ds;
                DataSourceData := DataSourceData (resp w);
                ResourceData := ResourceData (resp w) |};
     logged := logged w |}.

(** The errors of lines 45-68, for the attributes that are unknown. *)
Definition unknown_diagnostics (config : NetboxModel) : list Diagnostic :=
  (if IsUnknown (ServerUrl config) then [Unknown_ServerUrl] else []) ++
  (if IsUnknown (ApiToken config) then [Unknown_ApiToken] else []) ++
  (if IsUnknown (StripTrailingSlashesFromUrl config)
   then [Unknown_StripTrailingSlashesFromUrl] else []).

(** The errors of lines 81-103, for the selected values that are empty. *)
Definition missing_diagnostics (s t : string) : list Diagnostic :=
  (if String.eqb s "" then [Missing_ServerUrl] else []) ++
  (if String.eqb t "" then [Missing_ApiToken] else []).

(** Some attribute of the provider block is unknown. *)
Definition any_unknown (config : NetboxModel) : bool :=
  IsUnknown (ServerUrl config) || IsUnknown (ApiToken config) ||
  IsUnknown (StripTrailingSlashesFromUrl config).

(** The server URL lines 74-140 hand on: the selected one, without its
    trailing slashes when stripping is selected. *)
Definition normalized (config : NetboxModel) (env : gmap string string)
    : string :=
  let s := selected (ServerUrl config) env "NETBOX_SERVER_URL" in
  if selected_strip (StripTrailingSlashesFromUrl config) env
  then strings.TrimRight s "/" else s.

(** The log written when a run of statements ends. *)
Definition logged_of {A} (r : Res A) : list LogEntry :=
  match r with
  | Next _ w | Return w | Panic _ w => logged w
  | Diverge => []
  end.

(** Two environments that give the same values to the three variables
    [Configure] names. *)
Definition same_NETBOX_variables (env env' : gmap string string) : Prop :=
  Getenv env "NETBOX_SERVER_URL" = Getenv env' "NETBOX_SERVER_URL" /\
  Getenv env "NETBOX_API_TOKEN" = Getenv env' "NETBOX_API_TOKEN" /\
  Getenv env "NETBOX_STRIP_TRAILING_SLASHES_FROM_URL" =
    Getenv env' "NETBOX_STRIP_TRAILING_SLASHES_FROM_URL".

(** The client lines 163-193 build for a parsed URL and an API token,
    given the transport factory and the base path of the API. *)
Definition client_for
    (TLSTransport : TLSClientOptions -> option RoundTripper * option string)
    (DefaultBasePath : string) (parsedURL : URL) (apiToken : string)
    : NetBoxAPI :=
  netboxclient_New
    {| rt_Host := Host parsedURL;
       rt_BasePath := Path_ parsedURL +:+ DefaultBasePath;
       rt_Schemes := [Scheme parsedURL];
       rt_client :=
         {| Transport := (TLSTransport {| InsecureSkipVerify := true |}).1;
            Timeout := 10000000000 |};
       DefaultAuthentication :=
         Some (APIKeyAuth "Authorization" "header" ("Token " +:+ apiToken));
       logger_set := true |}.

(** A warning and an error that decoding a request may report. *)
Definition decode_warning : Diagnostic :=
  {| severity := SeverityWarning; attribute := None;
     summary := "Deprecated attribute"; detail := "" |}.

Definition decode_error : Diagnostic :=
  {| severity := SeverityError; attribute := None;
     summary := "Value Conversion Error"; detail := "" |}.

(** ** The resource of [netbox_resource.go] *)

Module netboxResource.

(** [netboxResourceModel] *)
Record netboxResourceModel : Type := {
  Id : attr string
}.

(** [var data netboxResourceModel]: the zero value, whose [Id] is null. *)
Definition zero : netboxResourceModel := {| Id := Null |}.

(** [data.Id = v] *)
Definition set_Id (data : netboxResourceModel) (v : attr string)
    : netboxResourceModel :=
  {| Id := v |}.

(** [resp.TypeName = req.ProviderTypeName + "_netbox"] *)
Definition Metadata (ProviderTypeName : string) : string :=
  ProviderTypeName +:+ "_netbox".

Section Resource.

(** The raw value of a plan or of a state. *)
Variable Raw : Type.

(** [Plan.Get] and [State.Get]: the target after the raw value has been
    decoded into it, and the diagnostics of the decoding. *)
Variable tfsdk_Get :
  Raw -> netboxResourceModel -> netboxResourceModel * list Diagnostic.

(** [State.Set]: the state after the write, and its diagnostics. *)
Variable tfsdk_Set : Raw -> netboxResourceModel -> Raw * list Diagnostic.

(** The two fields of a create, read, update or delete response that the
    resource touches. *)
Record Response : Type := {
  Diagnostics : list Diagnostic;
  State : Raw
}.

(** [resp.Diagnostics.Append(diags...)] *)
Definition Append (resp : Response) (diags : list Diagnostic) : Response :=
  {| Diagnostics := diag.Append (Diagnostics resp) diags;
     State := State resp |}.

(** [resp.Diagnostics.Append(resp.State.Set(ctx, &data)...)] *)
Definition State_Set (resp : Response) (data : netboxResourceModel)
    : Response :=
  let '(state, diags) := tfsdk_Set (State resp) data in
  Append {| Diagnostics := Diagnostics resp; State := state |} diags.

Definition Create (req_Plan : Raw) (resp : Response) : Response :=
  let data := zero in
  let '(data, diags) := tfsdk_Get req_Plan data in
  let resp := Append resp diags in
  if diag.HasError (Diagnostics resp) then resp
  else
    let data := set_Id data (Known "example-id") in
    State_Set resp data.

Definition Read (req_State : Raw) (resp : Response) : Response :=
  let data := zero in
  let '(data, diags) := tfsdk_Get req_State data in
  let resp := Append resp diags in
  if diag.HasError (Diagnostics resp) then resp
  else State_Set resp data.

Definition Update (req_Plan : Raw) (resp : Response) : Response :=
  let data := zero in
  let '(data, diags) := tfsdk_Get req_Plan data in
  let resp := Append resp diags in
  if diag.HasError (Diagnostics resp) then resp
  else State_Set resp data.

Definition Delete (req_State : Raw) (resp : Response) : Response :=
  let data := zero in
  let '(data, diags) := tfsdk_Get req_State data in
  let resp := Append resp diags in
  if diag.HasError (Diagnostics resp) then resp
  else resp.

End Resource.

Arguments Diagnostics {Raw} _.
Arguments State {Raw} _.

(** A stand-in for the framework, to run the resource on concrete inputs:
    a raw value is a model or nothing, decoding nothing is an error, and a
    write stores the model. *)
Definition sample_Get (raw : option netboxResourceModel)
    (target : netboxResourceModel)
    : netboxResourceModel * list Diagnostic :=
  match raw with
  | Some data => (data, [])
  | None =>
      (target, [decode_error])
  end.

Definition sample_Set (state : option netboxResourceModel)
    (data : netboxResourceModel)
    : option netboxResourceModel * list Diagnostic :=
  (Some data, []).

End netboxResource.

(** [netboxProvider.Metadata]: [resp.TypeName = "netbox"]. *)
Definition Metadata : string := "netbox".

(** * Properties *)

(** ** The string helpers *)

Module strings_facts.
Import strings.

Lemma append_empty (s : string) : "" +:+ s = s.
Proof. reflexivity. Qed.

Lemma append_cons (c : ascii) (s t : string) :
  String c s +:+ t = String c (s +:+ t).
Proof. reflexivity. Qed.

Lemma HasSuffix_iff (s suffix : string) :
  HasSuffix s suffix = true <-> exists p, s = p +:+ suffix.
Proof.
  split.
  - induction s as [|c s IH]; cbn [HasSuffix]; intros H.
    + rewrite orb_false_r in H. apply String.eqb_eq in H.
      now exists "".
    + apply orb_true_iff in H as [H|H].
      * apply String.eqb_eq in H. now exists "".
      * destruct (IH H) as [p ->]. now exists (String c p).
  - intros [p ->]. induction p as [|c p IH].
    + rewrite append_empty.
      destruct suffix; cbn [HasSuffix]; now rewrite String.eqb_refl.
    + rewrite append_cons. cbn [HasSuffix]. rewrite IH. apply orb_true_r.
Qed.

Lemma HasSuffix_cons (c : ascii) (s : string) :
  HasSuffix (String c s) "/" =
  (Ascii.eqb c "/" && String.eqb s "") || HasSuffix s "/".
Proof. reflexivity. Qed.

Lemma HasSuffix_empty : HasSuffix "" "/" = false.
Proof. reflexivity. Qed.

(** What [TrimRight] returns does not end in a slash. *)
Lemma HasSuffix_TrimRight (s : string) :
  HasSuffix (TrimRight s "/") "/" = false.
Proof.
  induction s as [|c s IH]; [reflexivity|].
  cbn [TrimRight]. destruct (TrimRight s "/") as [|d t] eqn:E.
  - cbn [IndexByte]. rewrite orb_false_r.
    destruct (Ascii.eqb c "/") eqn:Ec; [reflexivity|].
    rewrite HasSuffix_cons, Ec. reflexivity.
  - rewrite HasSuffix_cons, IH. cbn [String.eqb].
    now rewrite andb_false_r.
Qed.

(** [TrimRight] removes slashes from the end, and nothing else. *)
Lemma TrimRight_slashes (s : string) :
  exists n, s = TrimRight s "/" +:+ strings.slashes n.
Proof.
  induction s as [|c s [n IH]]; [now exists 0|].
  cbn [TrimRight]. destruct (TrimRight s "/") as [|d t] eqn:E.
  - cbn [IndexByte]. rewrite orb_false_r.
    destruct (Ascii.eqb c "/") eqn:Ec.
    + apply Ascii.eqb_eq in Ec as ->. exists (S n).
      rewrite append_empty in *. cbn [strings.slashes]. now f_equal.
    + exists n. rewrite append_cons, append_empty in *. now f_equal.
  - exists n. rewrite IH at 1. reflexivity.
Qed.

(** A string that does not end in a slash is left as it is. *)
Lemma TrimRight_clean (s : string) :
  HasSuffix s "/" = false -> TrimRight s "/" = s.
Proof.
  induction s as [|c s IH]; [reflexivity|].
  rewrite HasSuffix_cons. intros H.
  apply orb_false_iff in H as [Hc Hs].
  cbn [TrimRight]. rewrite (IH Hs).
  destruct s as [|d t]; [|reflexivity].
  cbn [IndexByte]. rewrite orb_false_r.
  cbn [String.eqb] in Hc. rewrite andb_true_r in Hc. now rewrite Hc.
Qed.

Lemma TrimRight_idempotent (s : string) :
  TrimRight (TrimRight s "/") "/" = TrimRight s "/".
Proof. apply TrimRight_clean, HasSuffix_TrimRight. Qed.

Lemma HasSuffix_nonempty (s : string) :
  HasSuffix s "/" = true -> String.length s <> 0.
Proof. destruct s; [discriminate|]. simpl. lia. Qed.

End strings_facts.

(** ** The strip loop terminates *)

(** With the length of the string as its bound, the loop of line 129 ends:
    it returns the string without its trailing slashes, and [trimmed] is
    set exactly when the string ended in a slash. *)
Lemma strip_loop_length (s : string) (trimmed : bool) :
  strip_loop (String.length s) s trimmed =
  Some (strings.TrimRight s "/", trimmed || strings.HasSuffix s "/").
Proof.
  destruct (strings.HasSuffix s "/") eqn:H.
  - destruct (String.length s) as [|n] eqn:L.
    + now apply strings_facts.HasSuffix_nonempty in H.
    + cbn [strip_loop]. rewrite H.
      destruct n; cbn [strip_loop];
        rewrite strings_facts.HasSuffix_TrimRight, orb_true_r;
        reflexivity.
  - rewrite orb_false_r, (strings_facts.TrimRight_clean _ H).
    destruct (String.length s); cbn [strip_loop]; now rewrite H.
Qed.

Lemma strip_trailing_slashes_run (s : string) (w : World) :
  strip_trailing_slashes s w =
  (when (strings.HasSuffix s "/")
     (AddAttributeWarning (Root "strip_trailing_slashes_from_url")
        (summary Stripped) (detail Stripped)) ;;
   mret (strings.TrimRight s "/")) w.
Proof.
  unfold strip_trailing_slashes. now rewrite strip_loop_length.
Qed.

(** ** Termination *)

Create HintDb terminates.

Lemma terminates_mret {A} (a : A) : terminates (mret a).
Proof. intros w. discriminate. Qed.

Lemma terminates_mbind {A B} (m : M A) (k : A -> M B) :
  terminates m -> (forall a, terminates (k a)) -> terminates (m ≫= k).
Proof.
  intros Hm Hk w. unfold mbind, M_bind.
  destruct (m w) as [a w'| | |] eqn:E; try discriminate.
  - apply Hk.
  - now apply Hm in E.
Qed.

Lemma terminates_when (b : bool) (m : M unit) :
  terminates m -> terminates (when b m).
Proof. destruct b; [trivial|intros _; apply terminates_mret]. Qed.

Lemma terminates_if {A} (b : bool) (m1 m2 : M A) :
  terminates m1 -> terminates m2 -> terminates (if b then m1 else m2).
Proof. now destruct b. Qed.

Lemma terminates_set_Diagnostics f : terminates (set_Diagnostics f).
Proof. intros w. discriminate. Qed.

Lemma terminates_return_if_HasError : terminates return_if_HasError.
Proof.
  intros w. unfold return_if_HasError. now destruct (diag.HasError _).
Qed.

Lemma terminates_log_Debug fields msg : terminates (log_Debug fields msg).
Proof. intros w. discriminate. Qed.

Lemma terminates_set_client client : terminates (set_client client).
Proof. intros w. discriminate. Qed.

Lemma terminates_discard {A} (a : A) : terminates (discard a).
Proof. intros w. discriminate. Qed.

Lemma terminates_deref {A} (p : option A) : terminates (deref p).
Proof. destruct p; intros w; discriminate. Qed.

Lemma terminates_AddAttributeError p s d : terminates (AddAttributeError p s d).
Proof. apply terminates_set_Diagnostics. Qed.

Lemma terminates_AddAttributeWarning p s d :
  terminates (AddAttributeWarning p s d).
Proof. apply terminates_set_Diagnostics. Qed.

Lemma terminates_Diagnostics_Append ds : terminates (Diagnostics_Append ds).
Proof. apply terminates_set_Diagnostics. Qed.

Lemma terminates_strip_trailing_slashes s :
  terminates (strip_trailing_slashes s).
Proof.
  intros w. rewrite strip_trailing_slashes_run.
  apply terminates_mbind.
  - apply terminates_when, terminates_AddAttributeWarning.
  - intros _. apply terminates_mret.
Qed.

#[local] Hint Resolve terminates_mret terminates_when terminates_if
  terminates_return_if_HasError terminates_log_Debug terminates_set_client
  terminates_discard terminates_deref terminates_AddAttributeError
  terminates_AddAttributeWarning terminates_Diagnostics_Append
  terminates_strip_trailing_slashes : terminates.

Ltac terminates :=
  repeat first
    [ solve [eauto with terminates]
    | match goal with
      | |- terminates (let '(_, _) := ?p in _) => destruct p
      end
    | apply terminates_mbind; [|intros ?] ].

(** The first half of [Configure] always ends: the bound of the strip loop
    is never reached. *)
Lemma resolve_terminates (config : NetboxModel) (env : gmap string string) :
  terminates (resolve config env).
Proof. unfold resolve. terminates. Qed.

#[local] Hint Resolve resolve_terminates : terminates.

(** ** What the first half of [Configure] computes *)

(** With an unknown attribute, the first half returns at line 71 with one
    error for each unknown attribute and nothing else. *)
Lemma resolve_unknown (config : NetboxModel) (env : gmap string string) :
  IsUnknown (ServerUrl config) || IsUnknown (ApiToken config) ||
    IsUnknown (StripTrailingSlashesFromUrl config) = true ->
  resolve config env World0 =
  Return (with_Diagnostics
    ((if IsUnknown (ServerUrl config) then [Unknown_ServerUrl] else []) ++
     (if IsUnknown (ApiToken config) then [Unknown_ApiToken] else []) ++
     (if IsUnknown (StripTrailingSlashesFromUrl config)
      then [Unknown_StripTrailingSlashesFromUrl] else []))).
Proof.
  unfold resolve.
  destruct (IsUnknown (ServerUrl config)),
           (IsUnknown (ApiToken config)),
           (IsUnknown (StripTrailingSlashesFromUrl config));
    intros H; try discriminate H; reflexivity.
Qed.

(** Without one, it reports the selected values that are empty and returns
    at line 116, or else strips the selected URL and goes on. *)
Lemma resolve_known (config : NetboxModel) (env : gmap string string) :
  IsUnknown (ServerUrl config) = false ->
  IsUnknown (ApiToken config) = false ->
  IsUnknown (StripTrailingSlashesFromUrl config) = false ->
  resolve config env World0 =
    let s := selected (ServerUrl config) env "NETBOX_SERVER_URL" in
    let t := selected (ApiToken config) env "NETBOX_API_TOKEN" in
    let b := selected_strip (StripTrailingSlashesFromUrl config) env in
    if String.eqb s "" || String.eqb t "" then
      Return (with_Diagnostics
                ((if String.eqb s "" then [Missing_ServerUrl] else []) ++
                 (if String.eqb t "" then [Missing_ApiToken] else [])))
    else
      Next {| serverUrl := if b then strings.TrimRight s "/" else s;
              apiToken := t;
              stripTrailingSlashesFromUrl := b |}
           (with_Diagnostics
              (if b && strings.HasSuffix s "/" then [Stripped] else [])).
Proof.
  intros Hu Ht Hb.
  unfold resolve. rewrite Hu, Ht, Hb.
  fold (selected (ServerUrl config) env "NETBOX_SERVER_URL").
  fold (selected (ApiToken config) env "NETBOX_API_TOKEN").
  set (s := selected (ServerUrl config) env "NETBOX_SERVER_URL").
  set (t := selected (ApiToken config) env "NETBOX_API_TOKEN").
  cbn zeta.
  replace (if negb (IsNull (StripTrailingSlashesFromUrl config))
           then ValueBool (StripTrailingSlashesFromUrl config)
           else if String.eqb
                     (Getenv env "NETBOX_STRIP_TRAILING_SLASHES_FROM_URL")
                     "false"
                then false else true)
    with (selected_strip (StripTrailingSlashesFromUrl config) env)
    by (unfold selected_strip;
        now destruct (String.eqb _ "false"), (negb _)).
  set (b := selected_strip _ _).
  unfold strip_trailing_slashes. rewrite strip_loop_length. cbn [orb].
  destruct (String.eqb s "") eqn:Es, (String.eqb t "") eqn:Et, b,
    (strings.HasSuffix s "/"); vm_compute; reflexivity.
Qed.

Lemma eqb_empty_false (s : string) : s <> "" -> String.eqb s "" = false.
Proof. intros H. now apply String.eqb_neq. Qed.

(** A run without an unknown attribute and with both selected values non
    empty. *)
Lemma resolve_success (config : NetboxModel) (env : gmap string string) :
  IsUnknown (ServerUrl config) = false ->
  IsUnknown (ApiToken config) = false ->
  IsUnknown (StripTrailingSlashesFromUrl config) = false ->
  selected (ServerUrl config) env "NETBOX_SERVER_URL" <> "" ->
  selected (ApiToken config) env "NETBOX_API_TOKEN" <> "" ->
  resolve config env World0 =
    let s := selected (ServerUrl config) env "NETBOX_SERVER_URL" in
    let b := selected_strip (StripTrailingSlashesFromUrl config) env in
    Next {| serverUrl := if b then strings.TrimRight s "/" else s;
            apiToken := selected (ApiToken config) env "NETBOX_API_TOKEN";
            stripTrailingSlashesFromUrl := b |}
         (with_Diagnostics
            (if b && strings.HasSuffix s "/" then [Stripped] else [])).
Proof.
  intros Hu Ht Hb Hs Hk. rewrite resolve_known by assumption.
  cbn zeta. now rewrite (eqb_empty_false _ Hs), (eqb_empty_false _ Hk).
Qed.

(** ** Normalisation of the server URL *)

Lemma TrimRight_all_slashes (n : nat) :
  strings.TrimRight (strings.slashes n) "/" = "".
Proof.
  induction n as [|n IH]; [reflexivity|].
  cbn [strings.slashes strings.TrimRight]. now rewrite IH.
Qed.

Lemma HasSuffix_all_slashes (n : nat) :
  strings.HasSuffix (strings.slashes (S n)) "/" = true.
Proof.
  apply strings_facts.HasSuffix_iff. exists (strings.slashes n).
  induction n as [|n IH]; [reflexivity|].
  cbn [strings.slashes] in *. rewrite strings_facts.append_cons.
  now f_equal.
Qed.

(** C7. With [server_url = "https://host///"], stripping enabled (set to
    true, or left null with the environment variable not [false]) and a
    non-empty API token selected, the first half of [Configure] goes on with
    [serverUrl] exactly ["https://host"], and the diagnostics are exactly
    the one trailing-slash warning: every trailing slash is removed. *)
Theorem resolve_strips_every_trailing_slash
    (token : attr string) (strip : attr bool) (env : gmap string string) :
  IsUnknown token = false ->
  IsUnknown strip = false ->
  selected token env "NETBOX_API_TOKEN" <> "" ->
  selected_strip strip env = true ->
  exists w,
    resolve {| ApiToken := token;
               ServerUrl := Known "https://host///";
               StripTrailingSlashesFromUrl := strip |} env World0
    = Next {| serverUrl := "https://host";
              apiToken := selected token env "NETBOX_API_TOKEN";
              stripTrailingSlashesFromUrl := true |} w /\
    Diagnostics (resp w) = [Stripped] /\
    length (List.filter is_warning (Diagnostics (resp w))) = 1 /\
    diag.HasError (Diagnostics (resp w)) = false.
Proof.
  intros Ht Hs Hk Hb. eexists. split.
  - rewrite resolve_success; cbn [ApiToken ServerUrl
      StripTrailingSlashesFromUrl IsUnknown]; try assumption;
      try reflexivity; try discriminate.
    cbn zeta. rewrite Hb. reflexivity.
  - repeat split.
Qed.

(** C8. Lines 125-140 on a server URL that does not end in a slash: the
    URL is left as it is and nothing is recorded, no warning in
    particular.  Moreover the lines are idempotent: run on their own
    result, they change nothing more. *)
Theorem strip_trailing_slashes_clean (s : string) (w : World) :
  strings.HasSuffix s "/" = false ->
  strip_trailing_slashes s w = Next s w /\
  (forall s0 w0 s' w',
      strip_trailing_slashes s0 w0 = Next s' w' ->
      strip_trailing_slashes s' w' = Next s' w').
Proof.
  intros H. split.
  - rewrite strip_trailing_slashes_run, H.
    now rewrite (strings_facts.TrimRight_clean _ H).
  - intros s0 w0 s' w' E.
    rewrite strip_trailing_slashes_run in E.
    assert (s' = strings.TrimRight s0 "/") as ->.
    { unfold mbind, M_bind in E.
      destruct (when _ _ w0); now inversion E. }
    rewrite strip_trailing_slashes_run,
      strings_facts.HasSuffix_TrimRight,
      strings_facts.TrimRight_idempotent.
    reflexivity.
Qed.

(** The same through the whole first half: a selected server URL that is
    not empty and does not end in a slash is handed on unchanged, without
    any diagnostic. *)
Lemma resolve_clean_url (config : NetboxModel) (env : gmap string string) :
  IsUnknown (ServerUrl config) = false ->
  IsUnknown (ApiToken config) = false ->
  IsUnknown (StripTrailingSlashesFromUrl config) = false ->
  selected (ServerUrl config) env "NETBOX_SERVER_URL" <> "" ->
  selected (ApiToken config) env "NETBOX_API_TOKEN" <> "" ->
  strings.HasSuffix (selected (ServerUrl config) env "NETBOX_SERVER_URL") "/"
    = false ->
  resolve config env World0 =
    Next {| serverUrl := selected (ServerUrl config) env "NETBOX_SERVER_URL";
            apiToken := selected (ApiToken config) env "NETBOX_API_TOKEN";
            stripTrailingSlashesFromUrl :=
              selected_strip (StripTrailingSlashesFromUrl config) env |}
         World0.
Proof.
  intros Hu Ht Hb Hs Hk Hc. rewrite resolve_success by assumption.
  cbn zeta. rewrite Hc, andb_false_r, (strings_facts.TrimRight_clean _ Hc).
  now destruct (selected_strip _ _).
Qed.

(** C4. A server URL made of slashes only passes the emptiness check of
    line 81, which runs before the slashes are stripped: with a non-empty
    API token and stripping enabled, the first half of [Configure] goes on
    without an error, with an empty [serverUrl]. *)
Theorem resolve_all_slashes (n : nat) (token : string)
    (env : gmap string string) :
  token <> "" ->
  resolve {| ApiToken := Known token;
             ServerUrl := Known (strings.slashes (S n));
             StripTrailingSlashesFromUrl := Known true |} env World0
  = Next {| serverUrl := "";
            apiToken := token;
            stripTrailingSlashesFromUrl := true |}
         (with_Diagnostics [Stripped]).
Proof.
  intros Hk. rewrite resolve_success; try reflexivity; try assumption.
  - cbn [ApiToken ServerUrl StripTrailingSlashesFromUrl selected
         selected_strip IsNull negb ValueString ValueBool].
    cbn zeta.
    now rewrite TrimRight_all_slashes, HasSuffix_all_slashes.
  - discriminate.
Qed.

(** ** The unknown-value guard and the presence checks *)

(** C2. When an attribute is unknown, the first half of [Configure] records
    one error for each unknown attribute, tagged to its path, and returns
    at line 71: the result holds these errors and nothing else, whatever
    the other attributes and the environment are.  The presence checks of
    lines 81 and 95 are not reached in that pass. *)
Theorem resolve_unknown_guard (config : NetboxModel)
    (env : gmap string string) :
  IsUnknown (ServerUrl config) || IsUnknown (ApiToken config) ||
    IsUnknown (StripTrailingSlashesFromUrl config) = true ->
  exists ds,
    resolve config env World0 = Return (with_Diagnostics ds) /\
    ds = (if IsUnknown (ServerUrl config)
          then [Unknown_ServerUrl] else []) ++
         (if IsUnknown (ApiToken config)
          then [Unknown_ApiToken] else []) ++
         (if IsUnknown (StripTrailingSlashesFromUrl config)
          then [Unknown_StripTrailingSlashesFromUrl] else []) /\
    ~ In Missing_ServerUrl ds /\
    ~ In Missing_ApiToken ds.
Proof.
  intros H. eexists. split; [now apply resolve_unknown|].
  split; [reflexivity|].
  destruct (IsUnknown (ServerUrl config)),
           (IsUnknown (ApiToken config)),
           (IsUnknown (StripTrailingSlashesFromUrl config));
    (split; cbn [app In]; intros F;
     repeat (destruct F as [F|F]; [discriminate F|]); exact F).
Qed.

(** The presence check of [api_token] does not run when [server_url] is
    unknown: with [api_token] null and nothing in the environment, the only
    diagnostic is the one of the unknown [server_url]. *)
Lemma unknown_serverUrl_hides_missing_apiToken :
  IsUnknown (ServerUrl {| ApiToken := Null; ServerUrl := Unknown;
                          StripTrailingSlashesFromUrl := Null |}) = true /\
  selected Null ∅ "NETBOX_API_TOKEN" = "" /\
  resolve {| ApiToken := Null; ServerUrl := Unknown;
             StripTrailingSlashesFromUrl := Null |} ∅ World0
  = Return (with_Diagnostics [Unknown_ServerUrl]) /\
  ~ (exists d, In d [Unknown_ServerUrl] /\
               attribute d = Some (Root "api_token")).
Proof.
  repeat split.
  intros [d [[<-|[]] H]]. discriminate H.
Qed.

(** C3. When no attribute is unknown and the selected server URL and the
    selected API token are both empty, the first half of [Configure]
    returns with the two missing-value errors together, the one tagged to
    [server_url] and the one tagged to [api_token]. *)
Theorem resolve_both_missing (config : NetboxModel)
    (env : gmap string string) :
  IsUnknown (ServerUrl config) = false ->
  IsUnknown (ApiToken config) = false ->
  IsUnknown (StripTrailingSlashesFromUrl config) = false ->
  selected (ServerUrl config) env "NETBOX_SERVER_URL" = "" ->
  selected (ApiToken config) env "NETBOX_API_TOKEN" = "" ->
  resolve config env World0 =
    Return (with_Diagnostics [Missing_ServerUrl; Missing_ApiToken]) /\
  is_error Missing_ServerUrl = true /\
  attribute Missing_ServerUrl = Some (Root "server_url") /\
  is_error Missing_ApiToken = true /\
  attribute Missing_ApiToken = Some (Root "api_token").
Proof.
  intros Hu Ht Hb Hs Hk. rewrite resolve_known by assumption.
  cbn zeta. rewrite Hs, Hk. repeat split.
Qed.

(** With both values missing and [strip_trailing_slashes_from_url] unknown,
    the run returns at line 71 with the error of the unknown attribute
    only: neither missing-value error is recorded. *)
Lemma unknown_strip_hides_both_missing :
  selected Null ∅ "NETBOX_SERVER_URL" = "" /\
  selected Null ∅ "NETBOX_API_TOKEN" = "" /\
  resolve {| ApiToken := Null; ServerUrl := Null;
             StripTrailingSlashesFromUrl := Unknown |} ∅ World0
  = Return (with_Diagnostics [Unknown_StripTrailingSlashesFromUrl]) /\
  ~ (exists d, In d [Unknown_StripTrailingSlashesFromUrl] /\
               (attribute d = Some (Root "server_url") \/
                attribute d = Some (Root "api_token"))).
Proof.
  repeat split.
  intros [d [[<-|[]] [H|H]]]; discriminate H.
Qed.

(** C9. When the first half of [Configure] ends with an error among its
    diagnostics, it has returned at line 71 or at line 116, before the
    slashes are stripped (line 125): every diagnostic is an error, and the
    trailing-slash warning is not among them, also when stripping is
    enabled and the selected server URL ends in a slash. *)
Theorem resolve_error_without_warning (config : NetboxModel)
    (env : gmap string string) :
  diag.HasError (diagnostics_of (resolve config env World0)) = true ->
  (exists w, resolve config env World0 = Return w) /\
  forallb is_error (diagnostics_of (resolve config env World0)) = true /\
  ~ In Stripped (diagnostics_of (resolve config env World0)).
Proof.
  destruct (IsUnknown (ServerUrl config) || IsUnknown (ApiToken config) ||
            IsUnknown (StripTrailingSlashesFromUrl config)) eqn:U.
  - rewrite (resolve_unknown _ _ U). intros _.
    split; [eauto|].
    destruct (IsUnknown (ServerUrl config)),
             (IsUnknown (ApiToken config)),
             (IsUnknown (StripTrailingSlashesFromUrl config));
      (split; [reflexivity|]); cbn; intros F;
      repeat (destruct F as [F|F]; [discriminate F|]); exact F.
  - apply orb_false_iff in U as [U Hb].
    apply orb_false_iff in U as [Hu Ht].
    rewrite (resolve_known _ _ Hu Ht Hb). cbn zeta.
    destruct (String.eqb (selected (ServerUrl config) env _) ""),
             (String.eqb (selected (ApiToken config) env _) "");
      cbn [orb].
    4:{ destruct (selected_strip _ _ && strings.HasSuffix _ "/");
        intros H; discriminate H. }
    all: intros _; split; [eauto|]; (split; [reflexivity|]); cbn;
      intros F; repeat (destruct F as [F|F]; [discriminate F|]); exact F.
Qed.

(** With stripping enabled, a server URL that ends in a slash and no API
    token, the only diagnostic is the missing-token error: the
    trailing-slash warning is not recorded. *)
Lemma missing_apiToken_without_warning :
  selected_strip (Known true) ∅ = true /\
  strings.HasSuffix (selected (Known "https://host/") ∅ "NETBOX_SERVER_URL")
    "/" = true /\
  resolve {| ApiToken := Null; ServerUrl := Known "https://host/";
             StripTrailingSlashesFromUrl := Known true |} ∅ World0
  = Return (with_Diagnostics [Missing_ApiToken]) /\
  diag.HasError [Missing_ApiToken] = true /\
  ~ In Stripped [Missing_ApiToken].
Proof.
  repeat split.
  intros [F|[]]. discriminate F.
Qed.

(** ** Configuration against environment *)

Lemma Getenv_insert_ne (env : gmap string string) (k k' x : string) :
  k <> k' -> Getenv (<[k:=x]> env) k' = Getenv env k'.
Proof. intros H. unfold Getenv. now rewrite lookup_insert_ne. Qed.

Lemma Getenv_insert_eq (env : gmap string string) (k x : string) :
  Getenv (<[k:=x]> env) k = x.
Proof. unfold Getenv. now rewrite lookup_insert_eq. Qed.

(** An attribute set to a value makes its environment variable
    irrelevant. *)
Lemma resolve_ServerUrl_Known (token : attr string) (strip : attr bool)
    (env : gmap string string) (u x : string) (w : World) :
  resolve {| ApiToken := token; ServerUrl := Known u;
             StripTrailingSlashesFromUrl := strip |}
    (<["NETBOX_SERVER_URL" := x]> env) w
  = resolve {| ApiToken := token; ServerUrl := Known u;
               StripTrailingSlashesFromUrl := strip |} env w.
Proof.
  unfold resolve.
  cbn [ApiToken ServerUrl StripTrailingSlashesFromUrl IsNull negb
       ValueString].
  now rewrite !Getenv_insert_ne by discriminate.
Qed.

Lemma resolve_ApiToken_Known (url : attr string) (strip : attr bool)
    (env : gmap string string) (t x : string) (w : World) :
  resolve {| ApiToken := Known t; ServerUrl := url;
             StripTrailingSlashesFromUrl := strip |}
    (<["NETBOX_API_TOKEN" := x]> env) w
  = resolve {| ApiToken := Known t; ServerUrl := url;
               StripTrailingSlashesFromUrl := strip |} env w.
Proof.
  unfold resolve.
  cbn [ApiToken ServerUrl StripTrailingSlashesFromUrl IsNull negb
       ValueString].
  now rewrite !Getenv_insert_ne by discriminate.
Qed.

Lemma resolve_Strip_Known (token url : attr string)
    (env : gmap string string) (b : bool) (x : string) (w : World) :
  resolve {| ApiToken := token; ServerUrl := url;
             StripTrailingSlashesFromUrl := Known b |}
    (<["NETBOX_STRIP_TRAILING_SLASHES_FROM_URL" := x]> env) w
  = resolve {| ApiToken := token; ServerUrl := url;
               StripTrailingSlashesFromUrl := Known b |} env w.
Proof.
  unfold resolve.
  cbn [ApiToken ServerUrl StripTrailingSlashesFromUrl IsNull negb
       ValueBool].
  now rewrite !Getenv_insert_ne by discriminate.
Qed.

(** A null attribute behaves as if it were set to what its environment
    variable gives. *)
Lemma resolve_ServerUrl_Null (token : attr string) (strip : attr bool)
    (env : gmap string string) (w : World) :
  resolve {| ApiToken := token; ServerUrl := Null;
             StripTrailingSlashesFromUrl := strip |} env w
  = resolve {| ApiToken := token;
               ServerUrl := Known (Getenv env "NETBOX_SERVER_URL");
               StripTrailingSlashesFromUrl := strip |} env w.
Proof. reflexivity. Qed.

Lemma resolve_ApiToken_Null (url : attr string) (strip : attr bool)
    (env : gmap string string) (w : World) :
  resolve {| ApiToken := Null; ServerUrl := url;
             StripTrailingSlashesFromUrl := strip |} env w
  = resolve {| ApiToken := Known (Getenv env "NETBOX_API_TOKEN");
               ServerUrl := url;
               StripTrailingSlashesFromUrl := strip |} env w.
Proof. reflexivity. Qed.

Lemma resolve_Strip_Null (token url : attr string)
    (env : gmap string string) (w : World) :
  resolve {| ApiToken := token; ServerUrl := url;
             StripTrailingSlashesFromUrl := Null |} env w
  = resolve {| ApiToken := token; ServerUrl := url;
               StripTrailingSlashesFromUrl :=
                 Known (negb (String.eqb
                   (Getenv env "NETBOX_STRIP_TRAILING_SLASHES_FROM_URL")
                   "false")) |} env w.
Proof.
  unfold resolve.
  cbn [ApiToken ServerUrl StripTrailingSlashesFromUrl IsNull negb
       ValueBool IsUnknown].
  now destruct (String.eqb _ "false").
Qed.

(** C6. A value set in the configuration is the one used, whatever the
    environment holds: with the three attributes set, the result is a
    function of these values alone, and for each attribute set to a value,
    changing its environment variable changes nothing.  An attribute that
    is null falls through to its environment variable: the result is the
    one of the configuration that sets the attribute to the value of the
    variable ([true] unless the variable is [false], for the flag). *)
Theorem explicit_value_wins (token url : attr string) (strip : attr bool)
    (env : gmap string string) (t u x : string) (b : bool) :
  resolve {| ApiToken := Known t; ServerUrl := Known u;
             StripTrailingSlashesFromUrl := Known b |} env World0
  = (if String.eqb u "" || String.eqb t "" then
       Return (with_Diagnostics
                 ((if String.eqb u "" then [Missing_ServerUrl] else []) ++
                  (if String.eqb t "" then [Missing_ApiToken] else [])))
     else
       Next {| serverUrl := if b then strings.TrimRight u "/" else u;
               apiToken := t;
               stripTrailingSlashesFromUrl := b |}
            (with_Diagnostics
               (if b && strings.HasSuffix u "/" then [Stripped] else [])))
  /\
  resolve {| ApiToken := token; ServerUrl := Known u;
             StripTrailingSlashesFromUrl := strip |}
    (<["NETBOX_SERVER_URL" := x]> env) World0
  = resolve {| ApiToken := token; ServerUrl := Known u;
               StripTrailingSlashesFromUrl := strip |} env World0
  /\
  resolve {| ApiToken := Known t; ServerUrl := url;
             StripTrailingSlashesFromUrl := strip |}
    (<["NETBOX_API_TOKEN" := x]> env) World0
  = resolve {| ApiToken := Known t; ServerUrl := url;
               StripTrailingSlashesFromUrl := strip |} env World0
  /\
  resolve {| ApiToken := token; ServerUrl := url;
             StripTrailingSlashesFromUrl := Known b |}
    (<["NETBOX_STRIP_TRAILING_SLASHES_FROM_URL" := x]> env) World0
  = resolve {| ApiToken := token; ServerUrl := url;
               StripTrailingSlashesFromUrl := Known b |} env World0
  /\
  resolve {| ApiToken := token; ServerUrl := Null;
             StripTrailingSlashesFromUrl := strip |} env World0
  = resolve {| ApiToken := token;
               ServerUrl := Known (Getenv env "NETBOX_SERVER_URL");
               StripTrailingSlashesFromUrl := strip |} env World0
  /\
  resolve {| ApiToken := Null; ServerUrl := url;
             StripTrailingSlashesFromUrl := strip |} env World0
  = resolve {| ApiToken := Known (Getenv env "NETBOX_API_TOKEN");
               ServerUrl := url;
               StripTrailingSlashesFromUrl := strip |} env World0
  /\
  resolve {| ApiToken := token; ServerUrl := url;
             StripTrailingSlashesFromUrl := Null |} env World0
  = resolve {| ApiToken := token; ServerUrl := url;
               StripTrailingSlashesFromUrl :=
                 Known (negb (String.eqb
                   (Getenv env "NETBOX_STRIP_TRAILING_SLASHES_FROM_URL")
                   "false")) |} env World0.
Proof.
  split; [now rewrite resolve_known|].
  split; [apply resolve_ServerUrl_Known|].
  split; [apply resolve_ApiToken_Known|].
  split; [apply resolve_Strip_Known|].
  split; [apply resolve_ServerUrl_Null|].
  split; [apply resolve_ApiToken_Null|].
  apply resolve_Strip_Null.
Qed.




(** ** The second half of [Configure] *)

Section Provider_facts.

Variable urlx_Parse : string -> option URL * option string.
Variable TLSTransport : TLSClientOptions -> option RoundTripper * option string.
Variable DefaultBasePath : string.

Local Abbreviation bootstrap' :=
  (bootstrap urlx_Parse TLSTransport DefaultBasePath).
Local Abbreviation Configure' :=
  (Configure urlx_Parse TLSTransport DefaultBasePath).

Lemma bootstrap_terminates (cfg : ResolvedConfig) : terminates (bootstrap' cfg).
Proof. unfold bootstrap. terminates. Qed.

(** [Configure] always ends, by a return or by a panic. *)
Lemma Configure_terminates (req : ConfigureRequest)
    (env : gmap string string) :
  terminates (Configure' req env).
Proof.
  pose proof bootstrap_terminates.
  unfold Configure. destruct (Config_Get req) as [config diags].
  terminates.
Qed.

(** A request that decodes without diagnostics goes through the two
    halves. *)
Lemma Configure_decoded (config : NetboxModel) (env : gmap string string) :
  Configure' (decoded config) env World0 =
  (resolve config env ≫= bootstrap') World0.
Proof. reflexivity. Qed.

(** What the second half does, by the result of the URL parser. *)
Lemma bootstrap_run (cfg : ResolvedConfig) (w : World) :
  bootstrap' cfg w =
  let w1 :=
    {| resp := resp w;
       logged := logged w ++
         [{| Fields := [("server_url", LogString (serverUrl cfg))];
             Message := "Initializing Netbox client" |}] |} in
  match (urlx_Parse (serverUrl cfg)).1 with
  | None => Panic nil_dereference w1
  | Some parsedURL =>
      let client :=
        netboxclient_New
          {| rt_Host := Host parsedURL;
             rt_BasePath := Path_ parsedURL +:+ DefaultBasePath;
             rt_Schemes := [Scheme parsedURL];
             rt_client :=
               {| Transport :=
                    (TLSTransport {| InsecureSkipVerify := true |}).1;
                  Timeout := 10000000000 |};
             DefaultAuthentication :=
               Some (APIKeyAuth "Authorization" "header"
                       ("Token " +:+ apiToken cfg));
             logger_set := true |} in
      Next tt
        {| resp := {| Diagnostics := Diagnostics (resp w);
                      DataSourceData := Some client;
                      ResourceData := Some client |};
           logged := logged w1 ++
             [{| Fields := [("host", LogString (Host parsedURL));
                            ("schemes", LogStrings [Scheme parsedURL])];
                 Message :=
                   "Initializing Netbox Open API runtime client" |}] |}
  end.
Proof.
  unfold bootstrap.
  destruct (urlx_Parse (serverUrl cfg)) as [[parsedURL|] urlParseError],
    (TLSTransport {| InsecureSkipVerify := true |}) as [trans err],
    (String.eqb (apiToken cfg) ""), urlParseError, err;
    reflexivity.
Qed.

(** C1. When the URL parser fails on the server URL (a nil URL and an
    error), the error value built at line 154 is dropped: the second half
    of [Configure] records no diagnostic, reads the scheme through the nil
    pointer at line 157 and panics, with the response as it was. *)
Theorem bootstrap_parse_error_panics (cfg : ResolvedConfig) (w : World)
    (e : string) :
  urlx_Parse (serverUrl cfg) = (None, Some e) ->
  exists w',
    bootstrap' cfg w = Panic nil_dereference w' /\
    resp w' = resp w.
Proof.
  intros H. rewrite bootstrap_run, H. cbn. eauto.
Qed.

(** C10. The second half of [Configure] either panics on a nil URL before
    any transport is built, or stores a client whose HTTP client runs on
    the transport built from the options with [InsecureSkipVerify] set to
    [true]: the options are a constant of the code, so neither the
    settings nor the state it starts from have a say. *)
Theorem bootstrap_InsecureSkipVerify (cfg : ResolvedConfig) (w : World) :
  match bootstrap' cfg w with
  | Next _ w' =>
      exists t,
        ResourceData (resp w') = Some (netboxclient_New t) /\
        DataSourceData (resp w') = Some (netboxclient_New t) /\
        Transport (rt_client t) =
          (TLSTransport {| InsecureSkipVerify := true |}).1
  | Panic _ w' =>
      (urlx_Parse (serverUrl cfg)).1 = None /\ resp w' = resp w
  | Return _ | Diverge => False
  end.
Proof.
  rewrite bootstrap_run. cbn zeta.
  destruct (urlx_Parse (serverUrl cfg)).1 as [parsedURL|]; cbn; eauto.
Qed.

(** Through the whole of [Configure]: a client found in the response runs
    on that transport, for every request and every environment. *)
Lemma Configure_InsecureSkipVerify (req : ConfigureRequest)
    (env : gmap string string) (w0 w : World) (t : Runtime) :
  Configure' req env w0 = Next tt w ->
  ResourceData (resp w) = Some (netboxclient_New t) ->
  Transport (rt_client t) = (TLSTransport {| InsecureSkipVerify := true |}).1.
Proof.
  intros H. unfold Configure in H.
  destruct (Config_Get req) as [config diags].
  unfold mbind, M_bind in H.
  destruct (Diagnostics_Append diags w0) as [[] w1| | |]; try discriminate H.
  destruct (return_if_HasError w1) as [[] w2| | |]; try discriminate H.
  destruct (resolve config env w2) as [cfg w3| | |]; try discriminate H.
  rewrite bootstrap_run in H. cbn zeta in H.
  destruct (urlx_Parse (serverUrl cfg)).1 as [parsedURL|];
    [|discriminate H].
  injection H as <-. cbn. intros E. now injection E as <-.
Qed.

End Provider_facts.

(** ** The properties at concrete inputs *)

(** [server_url = "https://demo.netbox.dev"], as in the example
    configuration: the client is built for scheme [https] on a transport
    that skips certificate verification. *)
Example Configure_https_demo :
  exists w t,
    Sample.Configure
      (decoded {| ApiToken := Known "0123456789abcdef";
                  ServerUrl := Known "https://demo.netbox.dev";
                  StripTrailingSlashesFromUrl := Null |}) ∅ World0
    = Next tt w /\
    ResourceData (resp w) = Some (netboxclient_New t) /\
    rt_Schemes t = ["https"] /\
    rt_Host t = "demo.netbox.dev" /\
    rt_BasePath t = "/api" /\
    DefaultAuthentication t =
      Some (APIKeyAuth "Authorization" "header" "Token 0123456789abcdef") /\
    Transport (rt_client t) =
      Some {| TLSClientConfig := {| InsecureSkipVerify := true |} |}.
Proof.
  do 2 eexists. split; [vm_compute; reflexivity|].
  split; [reflexivity|]. repeat split.
Qed.

(** [server_url = "not a url"] goes through the first half untouched and
    makes the whole of [Configure] panic, without a diagnostic. *)
Example Configure_not_a_url :
  exists w,
    Sample.Configure
      (decoded {| ApiToken := Known "0123456789abcdef";
                  ServerUrl := Known "not a url";
                  StripTrailingSlashesFromUrl := Null |}) ∅ World0
    = Panic nil_dereference w /\
    Diagnostics (resp w) = [] /\
    ResourceData (resp w) = None.
Proof. eexists. split; [vm_compute; reflexivity|]. split; reflexivity. Qed.

Lemma bootstrap_parse_error_panics_witness :
  Sample.urlx_Parse "not a url" =
    (None, Some "invalid character in host name") /\
  exists w',
    Sample.bootstrap {| serverUrl := "not a url";
                        apiToken := "0123456789abcdef";
                        stripTrailingSlashesFromUrl := true |} World0
    = Panic nil_dereference w' /\
    resp w' = resp World0.
Proof.
  split; [reflexivity|].
  apply (bootstrap_parse_error_panics
           Sample.urlx_Parse Sample.TLSTransport Sample.DefaultBasePath
           {| serverUrl := "not a url";
              apiToken := "0123456789abcdef";
              stripTrailingSlashesFromUrl := true |}
           World0 "invalid character in host name").
  reflexivity.
Defined.

Lemma resolve_unknown_guard_witness :
  IsUnknown (@Unknown string) || IsUnknown (@Null string) ||
    IsUnknown (@Null bool) = true /\
  exists ds,
    resolve {| ApiToken := Null; ServerUrl := Unknown;
               StripTrailingSlashesFromUrl := Null |} ∅ World0
    = Return (with_Diagnostics ds) /\
    ds = [Unknown_ServerUrl] /\
    ~ In Missing_ServerUrl ds /\
    ~ In Missing_ApiToken ds.
Proof.
  split; [reflexivity|].
  apply (resolve_unknown_guard
           {| ApiToken := Null; ServerUrl := Unknown;
              StripTrailingSlashesFromUrl := Null |} ∅).
  reflexivity.
Defined.

Lemma resolve_both_missing_witness :
  selected Null ∅ "NETBOX_SERVER_URL" = "" /\
  selected Null ∅ "NETBOX_API_TOKEN" = "" /\
  resolve {| ApiToken := Null; ServerUrl := Null;
             StripTrailingSlashesFromUrl := Null |} ∅ World0
  = Return (with_Diagnostics [Missing_ServerUrl; Missing_ApiToken]).
Proof.
  split; [reflexivity|]. split; [reflexivity|].
  apply (resolve_both_missing
           {| ApiToken := Null; ServerUrl := Null;
              StripTrailingSlashesFromUrl := Null |} ∅);
    reflexivity.
Defined.

Lemma resolve_all_slashes_witness :
  "0123456789abcdef" <> "" /\
  resolve {| ApiToken := Known "0123456789abcdef";
             ServerUrl := Known "///";
             StripTrailingSlashesFromUrl := Known true |} ∅ World0
  = Next {| serverUrl := "";
            apiToken := "0123456789abcdef";
            stripTrailingSlashesFromUrl := true |}
         (with_Diagnostics [Stripped]).
Proof.
  split; [discriminate|].
  apply (resolve_all_slashes 2 "0123456789abcdef" ∅). discriminate.
Defined.


Lemma resolve_strips_every_trailing_slash_witness :
  selected (Known "0123456789abcdef") ∅ "NETBOX_API_TOKEN" <> "" /\
  selected_strip Null ∅ = true /\
  exists w,
    resolve {| ApiToken := Known "0123456789abcdef";
               ServerUrl := Known "https://host///";
               StripTrailingSlashesFromUrl := Null |} ∅ World0
    = Next {| serverUrl := "https://host";
              apiToken := selected (Known "0123456789abcdef") ∅
                            "NETBOX_API_TOKEN";
              stripTrailingSlashesFromUrl := true |} w /\
    Diagnostics (resp w) = [Stripped] /\
    length (List.filter is_warning (Diagnostics (resp w))) = 1 /\
    diag.HasError (Diagnostics (resp w)) = false.
Proof.
  split; [discriminate|]. split; [reflexivity|].
  apply (resolve_strips_every_trailing_slash
           (Known "0123456789abcdef") Null ∅);
    [reflexivity | reflexivity | discriminate | reflexivity].
Defined.

Lemma strip_trailing_slashes_clean_witness :
  strings.HasSuffix "https://host" "/" = false /\
  strip_trailing_slashes "https://host" World0 = Next "https://host" World0.
Proof.
  split; [reflexivity|].
  apply (strip_trailing_slashes_clean "https://host" World0). reflexivity.
Defined.

Lemma resolve_error_without_warning_witness :
  diag.HasError
    (diagnostics_of
       (resolve {| ApiToken := Null; ServerUrl := Known "https://host/";
                   StripTrailingSlashesFromUrl := Known true |} ∅ World0))
  = true /\
  ~ In Stripped
      (diagnostics_of
         (resolve {| ApiToken := Null; ServerUrl := Known "https://host/";
                     StripTrailingSlashesFromUrl := Known true |} ∅ World0)).
Proof.
  split; [reflexivity|].
  apply (resolve_error_without_warning
           {| ApiToken := Null; ServerUrl := Known "https://host/";
              StripTrailingSlashesFromUrl := Known true |} ∅).
  reflexivity.
Defined.

(** * Further properties of [Configure] *)

(** ** The diagnostics collection *)

Module diag_facts.
Import diag.

Lemma Contains_In (ds : list Diagnostic) (d : Diagnostic) :
  Contains ds d = true <-> In d ds.
Proof.
  unfold Contains. rewrite existsb_exists. split.
  - intros [x [Hx E]]. apply bool_decide_eq_true in E. now subst.
  - intros H. exists d. split; [assumption|]. now apply bool_decide_eq_true.
Qed.

Lemma HasError_app (ds ds' : list Diagnostic) :
  HasError (ds ++ ds') = HasError ds || HasError ds'.
Proof. apply existsb_app. Qed.

Lemma HasError_In (ds : list Diagnostic) (d : Diagnostic) :
  In d ds -> is_error d = true -> HasError ds = true.
Proof. intros H E. apply existsb_exists. eauto. Qed.

Lemma Append_app (ds a b : list Diagnostic) :
  Append ds (a ++ b) = Append (Append ds a) b.
Proof.
  revert ds. induction a as [|d a IH]; intros ds; [reflexivity|].
  cbn. apply IH.
Qed.

(** Appending keeps what was there, and adds an error exactly when one of
    the new diagnostics is an error. *)
Lemma HasError_Append (ds new : list Diagnostic) :
  HasError (Append ds new) = HasError ds || HasError new.
Proof.
  revert ds. induction new as [|d new IH]; intros ds; cbn [Append].
  - cbn. now rewrite orb_false_r.
  - rewrite IH. cbn [HasError existsb]. destruct (Contains ds d) eqn:C.
    + apply Contains_In in C. destruct (is_error d) eqn:E; [|reflexivity].
      fold (HasError ds). rewrite (HasError_In _ _ C E). reflexivity.
    + rewrite HasError_app. cbn. fold (HasError ds). fold (HasError new).
      now rewrite orb_false_r, orb_assoc.
Qed.

Lemma In_Append (ds new : list Diagnostic) (d : Diagnostic) :
  In d (Append ds new) <-> In d ds \/ In d new.
Proof.
  revert ds. induction new as [|x new IH]; intros ds; cbn [Append].
  - cbn. tauto.
  - rewrite IH. destruct (Contains ds x) eqn:C.
    + apply Contains_In in C. cbn. split; [tauto|].
      intros [H|[->|H]]; tauto.
    + rewrite List.in_app_iff. cbn. tauto.
Qed.

Lemma NoDup_Append (ds new : list Diagnostic) :
  List.NoDup ds -> List.NoDup (Append ds new).
Proof.
  revert ds. induction new as [|x new IH]; intros ds H; cbn [Append];
    [assumption|].
  apply IH. destruct (Contains ds x) eqn:C; [assumption|].
  apply List.NoDup_app; [assumption|repeat constructor; intros []|].
  intros y Hy [<-|[]]. apply Contains_In in Hy. congruence.
Qed.

End diag_facts.

Lemma HasError_unknown_diagnostics (config : NetboxModel) :
  diag.HasError (unknown_diagnostics config) = any_unknown config.
Proof.
  unfold unknown_diagnostics, any_unknown.
  now destruct (IsUnknown (ServerUrl config)),
               (IsUnknown (ApiToken config)),
               (IsUnknown (StripTrailingSlashesFromUrl config)).
Qed.

Lemma HasError_missing_diagnostics (s t : string) :
  diag.HasError (missing_diagnostics s t) =
  String.eqb s "" || String.eqb t "".
Proof.
  unfold missing_diagnostics.
  now destruct (String.eqb s ""), (String.eqb t "").
Qed.

(** ** The first half of [Configure], from any state *)

(** What lines 45-140 do to a response that may already hold
    diagnostics. *)
Lemma resolve_run (config : NetboxModel) (env : gmap string string)
    (w : World) :
  resolve config env w =
  if diag.HasError (Diagnostics (resp w)) || any_unknown config
  then Return (add_Diagnostics w (unknown_diagnostics config))
  else
    let s := selected (ServerUrl config) env "NETBOX_SERVER_URL" in
    let t := selected (ApiToken config) env "NETBOX_API_TOKEN" in
    let b := selected_strip (StripTrailingSlashesFromUrl config) env in
    if String.eqb s "" || String.eqb t "" then
      Return (add_Diagnostics w (missing_diagnostics s t))
    else
      Next {| serverUrl := normalized config env;
              apiToken := t;
              stripTrailingSlashesFromUrl := b |}
           (add_Diagnostics w
              (if b && strings.HasSuffix s "/" then [Stripped] else [])).
Proof.
  destruct w as [[ds dsd rd] lg].
  unfold resolve, normalized, any_unknown.
  fold (selected (ServerUrl config) env "NETBOX_SERVER_URL").
  fold (selected (ApiToken config) env "NETBOX_API_TOKEN").
  set (s := selected (ServerUrl config) env "NETBOX_SERVER_URL").
  set (t := selected (ApiToken config) env "NETBOX_API_TOKEN").
  cbn zeta.
  replace (if negb (IsNull (StripTrailingSlashesFromUrl config))
           then ValueBool (StripTrailingSlashesFromUrl config)
           else if String.eqb
                     (Getenv env "NETBOX_STRIP_TRAILING_SLASHES_FROM_URL")
                     "false"
                then false else true)
    with (selected_strip (StripTrailingSlashesFromUrl config) env)
    by (unfold selected_strip;
        now destruct (String.eqb _ "false"), (negb _)).
  set (b := selected_strip _ _).
  unfold strip_trailing_slashes. rewrite strip_loop_length. cbn [orb].
  cbn [resp Diagnostics].
  unfold unknown_diagnostics, missing_diagnostics.
  unfold mbind, M_bind, when, AddAttributeError, AddAttributeWarning,
    Diagnostics_Append, set_Diagnostics, return_if_HasError, return_, mret,
    M_ret, add_Diagnostics.
  cbn [resp Diagnostics DataSourceData ResourceData logged].
  assert (Herr : forall p x y,
             diag.HasError [diag.NewAttributeErrorDiagnostic p x y] = true)
    by reflexivity.
  destruct (IsUnknown (ServerUrl config)), (IsUnknown (ApiToken config)),
    (IsUnknown (StripTrailingSlashesFromUrl config));
    cbn [app orb resp Diagnostics DataSourceData ResourceData logged];
    rewrite ?diag_facts.HasError_Append, ?Herr, ?orb_true_r, ?orb_false_r;
    cbv iota; try reflexivity.
  destruct (diag.HasError ds) eqn:E; [reflexivity|].
  destruct (String.eqb s ""), (String.eqb t "");
    cbn [app orb resp Diagnostics DataSourceData ResourceData logged];
    rewrite ?diag_facts.HasError_Append, ?Herr, ?E, ?orb_true_r;
    cbv iota; try reflexivity.
  destruct b, (strings.HasSuffix s "/"); reflexivity.
Qed.

Lemma selected_Known (x : string) (env : gmap string string)
    (key : string) :
  selected (Known x) env key = x.
Proof. reflexivity. Qed.

Lemma selected_strip_Known (b : bool) (env : gmap string string) :
  selected_strip (Known b) env = b.
Proof. reflexivity. Qed.

(** The inputs and the result of a run that goes on to the second half. *)
Lemma resolve_Next (config : NetboxModel) (env : gmap string string)
    (w w' : World) (rc : ResolvedConfig) :
  resolve config env w = Next rc w' ->
  diag.HasError (Diagnostics (resp w)) = false /\
  any_unknown config = false /\
  selected (ServerUrl config) env "NETBOX_SERVER_URL" <> "" /\
  selected (ApiToken config) env "NETBOX_API_TOKEN" <> "" /\
  rc = {| serverUrl := normalized config env;
          apiToken := selected (ApiToken config) env "NETBOX_API_TOKEN";
          stripTrailingSlashesFromUrl :=
            selected_strip (StripTrailingSlashesFromUrl config) env |} /\
  w' = add_Diagnostics w
         (if selected_strip (StripTrailingSlashesFromUrl config) env &&
             strings.HasSuffix
               (selected (ServerUrl config) env "NETBOX_SERVER_URL") "/"
          then [Stripped] else []).
Proof.
  rewrite resolve_run.
  destruct (diag.HasError (Diagnostics (resp w))) eqn:E; [discriminate|].
  destruct (any_unknown config); [discriminate|]. cbn [orb]. cbn zeta.
  destruct (String.eqb (selected (ServerUrl config) env _) "") eqn:Es;
    [discriminate|].
  destruct (String.eqb (selected (ApiToken config) env _) "") eqn:Et;
    [discriminate|].
  cbn [orb]. intros H. injection H as <- <-.
  apply String.eqb_neq in Es, Et. easy.
Qed.

(** X1. The loop of lines 129-132 runs its body at most once: one call of
    [strings.TrimRight] removes every trailing slash, so a bound of one
    iteration already gives the result, for every string. *)
Theorem strip_loop_one_iteration (fuel : nat) (s : string) (trimmed : bool) :
  strip_loop (S fuel) s trimmed =
  Some (strings.TrimRight s "/", trimmed || strings.HasSuffix s "/").
Proof.
  cbn [strip_loop]. destruct (strings.HasSuffix s "/") eqn:H.
  - destruct fuel; cbn [strip_loop];
      rewrite strings_facts.HasSuffix_TrimRight, orb_true_r; reflexivity.
  - now rewrite orb_false_r, (strings_facts.TrimRight_clean _ H).
Qed.

(** X2. With stripping switched off (the attribute set to false, or null
    with the environment variable equal to [false]), no attribute unknown
    and both selected values non-empty, the selected server URL is handed
    on as it is, trailing slashes included, and nothing is recorded. *)
Theorem resolve_strip_disabled (config : NetboxModel)
    (env : gmap string string) :
  any_unknown config = false ->
  selected (ServerUrl config) env "NETBOX_SERVER_URL" <> "" ->
  selected (ApiToken config) env "NETBOX_API_TOKEN" <> "" ->
  selected_strip (StripTrailingSlashesFromUrl config) env = false ->
  resolve config env World0 =
    Next {| serverUrl := selected (ServerUrl config) env "NETBOX_SERVER_URL";
            apiToken := selected (ApiToken config) env "NETBOX_API_TOKEN";
            stripTrailingSlashesFromUrl := false |}
         World0.
Proof.
  intros Hu Hs Ht Hb. rewrite resolve_run, Hu. unfold normalized.
  cbn zeta. rewrite (eqb_empty_false _ Hs), (eqb_empty_false _ Ht), Hb.
  reflexivity.
Qed.

(** X3. What holds whenever the first half of [Configure] goes on to the
    second: no attribute was unknown, the diagnostics hold no error, the
    API token is the selected one and is not empty, and the server URL is
    the selected one, without a trailing slash when stripping is on, not
    empty when stripping is off.  The log and the two client fields of the
    response are as they were. *)
Theorem resolve_success_invariants (config : NetboxModel)
    (env : gmap string string) (w w' : World) (rc : ResolvedConfig) :
  resolve config env w = Next rc w' ->
  any_unknown config = false /\
  diag.HasError (Diagnostics (resp w')) = false /\
  apiToken rc = selected (ApiToken config) env "NETBOX_API_TOKEN" /\
  apiToken rc <> "" /\
  serverUrl rc = normalized config env /\
  (stripTrailingSlashesFromUrl rc = true ->
   strings.HasSuffix (serverUrl rc) "/" = false) /\
  (stripTrailingSlashesFromUrl rc = false ->
   serverUrl rc = selected (ServerUrl config) env "NETBOX_SERVER_URL" /\
   serverUrl rc <> "") /\
  logged w' = logged w /\
  DataSourceData (resp w') = DataSourceData (resp w) /\
  ResourceData (resp w') = ResourceData (resp w).
Proof.
  intros H.
  destruct (resolve_Next _ _ _ _ _ H) as (E & Hu & Hs & Ht & -> & ->).
  cbn [apiToken serverUrl stripTrailingSlashesFromUrl add_Diagnostics resp
       Diagnostics DataSourceData ResourceData logged].
  unfold normalized.
  split; [assumption|]. split.
  { rewrite diag_facts.HasError_Append, E. now destruct (_ && _). }
  do 3 (split; [easy|]). split.
  { intros ->. apply strings_facts.HasSuffix_TrimRight. }
  split; [|easy]. now intros ->.
Qed.

(** X4. The settings the first half hands on are a fixed point: set as the
    three attributes of a provider block, they come out unchanged, with no
    diagnostic and whatever the environment, provided the server URL is
    not empty. *)
Theorem resolve_stable (config : NetboxModel) (env env' : gmap string string)
    (w w' : World) (rc : ResolvedConfig) :
  resolve config env w = Next rc w' ->
  serverUrl rc <> "" ->
  resolve {| ApiToken := Known (apiToken rc);
             ServerUrl := Known (serverUrl rc);
             StripTrailingSlashesFromUrl :=
               Known (stripTrailingSlashesFromUrl rc) |} env' World0
  = Next rc World0.
Proof.
  intros H Hs.
  destruct (resolve_Next _ _ _ _ _ H) as (_ & _ & _ & Ht & -> & _).
  cbn [serverUrl apiToken stripTrailingSlashesFromUrl] in *.
  set (t := selected (ApiToken config) env "NETBOX_API_TOKEN") in *.
  set (u := normalized config env) in *.
  set (b := selected_strip (StripTrailingSlashesFromUrl config) env).
  assert (Hc : b = true -> strings.HasSuffix u "/" = false).
  { intros Hb. unfold u, normalized. fold b. rewrite Hb.
    apply strings_facts.HasSuffix_TrimRight. }
  rewrite resolve_run. unfold any_unknown, normalized.
  cbn [ApiToken ServerUrl StripTrailingSlashesFromUrl IsUnknown orb World0
       resp Diagnostics diag.HasError existsb].
  rewrite !selected_Known, !selected_strip_Known. cbn zeta.
  rewrite (eqb_empty_false _ Hs), (eqb_empty_false _ Ht). cbn [orb].
  destruct b; [|reflexivity].
  now rewrite (Hc eq_refl), (strings_facts.TrimRight_clean _ (Hc eq_refl)).
Qed.

(** X5. Lines 45-140 of [Configure] read the environment through three
    variables only, [NETBOX_SERVER_URL], [NETBOX_API_TOKEN] and
    [NETBOX_STRIP_TRAILING_SLASHES_FROM_URL]: two environments that agree
    on them give the same run of these lines, from every state. *)
Theorem resolve_env_frame (config : NetboxModel)
    (env env' : gmap string string) (w : World) :
  same_NETBOX_variables env env' ->
  resolve config env w = resolve config env' w.
Proof.
  intros (Hu & Ht & Hb). unfold resolve. now rewrite Hu, Ht, Hb.
Qed.

(** ** The whole of [Configure] *)

Section Configure_facts.

Variable urlx_Parse : string -> option URL * option string.
Variable TLSTransport : TLSClientOptions -> option RoundTripper * option string.
Variable DefaultBasePath : string.

Local Abbreviation bootstrap' :=
  (bootstrap urlx_Parse TLSTransport DefaultBasePath).
Local Abbreviation Configure' :=
  (Configure urlx_Parse TLSTransport DefaultBasePath).

Local Abbreviation client_for' := (client_for TLSTransport DefaultBasePath).

(** Lines 38-43, then the two halves. *)
Lemma Configure_run (req : ConfigureRequest) (env : gmap string string)
    (w0 : World) :
  Configure' req env w0 =
  let w1 := add_Diagnostics w0 (Config_Get req).2 in
  if diag.HasError (Diagnostics (resp w1)) then Return w1
  else (resolve (Config_Get req).1 env ≫= bootstrap') w1.
Proof.
  unfold Configure. destruct (Config_Get req) as [config diags].
  destruct w0 as [[ds dsd rd] lg]. cbn.
  unfold mbind at 1 2, M_bind at 1 2. cbn.
  unfold return_if_HasError, return_, add_Diagnostics, diag.HasError. cbn.
  now destruct (existsb is_error (diag.Append ds diags)).
Qed.

(** What the second half leaves in the state: the diagnostics as they
    were, one log entry before the URL is parsed and one after, and the
    client in both fields. *)
Lemma bootstrap_result (cfg : ResolvedConfig) (w : World) :
  match (urlx_Parse (serverUrl cfg)).1 with
  | None =>
      exists w', bootstrap' cfg w = Panic nil_dereference w' /\
                 resp w' = resp w
  | Some parsedURL =>
      exists w', bootstrap' cfg w = Next tt w' /\
                 Diagnostics (resp w') = Diagnostics (resp w) /\
                 DataSourceData (resp w') =
                   Some (client_for' parsedURL (apiToken cfg)) /\
                 ResourceData (resp w') =
                   Some (client_for' parsedURL (apiToken cfg))
  end.
Proof.
  rewrite bootstrap_run. cbn zeta.
  destruct (urlx_Parse (serverUrl cfg)).1; eexists; repeat split.
Qed.

(** [Configure] by cases: the three early returns, then the second half. *)
Lemma Configure_cases (req : ConfigureRequest) (env : gmap string string)
    (w0 : World) :
  Configure' req env w0 =
  let config := (Config_Get req).1 in
  let w1 := add_Diagnostics w0 (Config_Get req).2 in
  let s := selected (ServerUrl config) env "NETBOX_SERVER_URL" in
  let t := selected (ApiToken config) env "NETBOX_API_TOKEN" in
  let b := selected_strip (StripTrailingSlashesFromUrl config) env in
  if diag.HasError (Diagnostics (resp w1)) then Return w1
  else if any_unknown config
  then Return (add_Diagnostics w1 (unknown_diagnostics config))
  else if String.eqb s "" || String.eqb t ""
  then Return (add_Diagnostics w1 (missing_diagnostics s t))
  else
    bootstrap' {| serverUrl := normalized config env;
                  apiToken := t;
                  stripTrailingSlashesFromUrl := b |}
      (add_Diagnostics w1
         (if b && strings.HasSuffix s "/" then [Stripped] else [])).
Proof.
  rewrite Configure_run. cbn zeta.
  destruct (diag.HasError _) eqn:E; [reflexivity|].
  unfold mbind, M_bind. rewrite resolve_run, E. cbn [orb]. cbn zeta.
  destruct (any_unknown _); [reflexivity|].
  now destruct (String.eqb _ "" || String.eqb _ "").
Qed.

(** X6. How [Configure] can end, from every request, environment and
    state.  It returns early exactly with an error among the diagnostics,
    and then the two client fields and the log are as they were.  It
    finishes only without an error among the diagnostics, and then the two
    client fields hold one and the same client.  Otherwise it panics on
    the nil URL, without an error recorded and with the client fields as
    they were. *)
Theorem Configure_outcome (req : ConfigureRequest)
    (env : gmap string string) (w0 : World) :
  match Configure' req env w0 with
  | Return w =>
      diag.HasError (Diagnostics (resp w)) = true /\
      DataSourceData (resp w) = DataSourceData (resp w0) /\
      ResourceData (resp w) = ResourceData (resp w0) /\
      logged w = logged w0
  | Next _ w =>
      diag.HasError (Diagnostics (resp w)) = false /\
      exists client,
        DataSourceData (resp w) = Some client /\
        ResourceData (resp w) = Some client
  | Panic msg w =>
      msg = nil_dereference /\
      diag.HasError (Diagnostics (resp w)) = false /\
      DataSourceData (resp w) = DataSourceData (resp w0) /\
      ResourceData (resp w) = ResourceData (resp w0)
  | Diverge => False
  end.
Proof.
  rewrite Configure_cases. cbn zeta.
  set (w1 := add_Diagnostics w0 (Config_Get req).2).
  assert (Hdsd : DataSourceData (resp w1) = DataSourceData (resp w0))
    by reflexivity.
  assert (Hrd : ResourceData (resp w1) = ResourceData (resp w0))
    by reflexivity.
  assert (Hlg : logged w1 = logged w0) by reflexivity.
  clearbody w1.
  destruct (diag.HasError (Diagnostics (resp w1))) eqn:E; [easy|].
  destruct (any_unknown _) eqn:U.
  { cbn [add_Diagnostics resp Diagnostics DataSourceData ResourceData
         logged].
    now rewrite diag_facts.HasError_Append,
      HasError_unknown_diagnostics, U, orb_true_r. }
  destruct (String.eqb _ "" || String.eqb _ "") eqn:Em.
  { cbn [add_Diagnostics resp Diagnostics DataSourceData ResourceData
         logged].
    now rewrite diag_facts.HasError_Append,
      HasError_missing_diagnostics, Em, orb_true_r. }
  match goal with
  | |- context [bootstrap ?p ?q ?r ?cfg ?w] =>
      pose proof (bootstrap_result cfg w) as B;
      assert (Hw : diag.HasError (Diagnostics (resp w)) = false)
        by (cbn [add_Diagnostics resp Diagnostics];
            rewrite diag_facts.HasError_Append, E;
            now destruct (_ && _))
  end.
  destruct (urlx_Parse _).1 as [u|].
  - destruct B as [w' [-> (Hd & H1 & H2)]]. rewrite Hd. eauto.
  - destruct B as [w' [-> Hr]]. rewrite Hr. easy.
Qed.

(** What [Configure] leaves in the response: the diagnostics it was given,
    then those of the decoding, then its own. *)
Lemma Configure_diagnostics (req : ConfigureRequest)
    (env : gmap string string) (w0 : World) :
  exists X,
    diagnostics_of (Configure' req env w0) =
    diag.Append
      (diag.Append (Diagnostics (resp w0)) (Config_Get req).2) X.
Proof.
  rewrite Configure_cases. cbn zeta.
  destruct (diag.HasError _); [now exists []|].
  destruct (any_unknown _); [now eexists|].
  destruct (String.eqb _ "" || String.eqb _ ""); [now eexists|].
  match goal with
  | |- context [bootstrap ?p ?q ?r ?cfg ?w] =>
      pose proof (bootstrap_result cfg w) as B
  end.
  destruct (urlx_Parse _).1 as [u|].
  - destruct B as [w' [-> (H & _)]]. cbn [diagnostics_of]. rewrite H.
    now eexists.
  - destruct B as [w' [-> H]]. cbn [diagnostics_of]. rewrite H.
    now eexists.
Qed.

(** X7. [Configure] loses no diagnostic and records none twice: what the
    response held before the call and what decoding the request reported
    are all in the response it leaves, and a response without duplicates
    stays without duplicates, whatever the decoding reports. *)
Theorem Configure_keeps_diagnostics (req : ConfigureRequest)
    (env : gmap string string) (w0 : World) :
  (forall d,
      In d (Diagnostics (resp w0)) \/ In d (Config_Get req).2 ->
      In d (diagnostics_of (Configure' req env w0))) /\
  (List.NoDup (Diagnostics (resp w0)) ->
   List.NoDup (diagnostics_of (Configure' req env w0))).
Proof.
  destruct (Configure_diagnostics req env w0) as [X ->]. split.
  - intros d Hd. apply diag_facts.In_Append. left.
    now apply diag_facts.In_Append.
  - intros N. now do 2 apply diag_facts.NoDup_Append.
Qed.

(** X8. When decoding the request reports an error, [Configure] returns
    at line 42 with the response it was given plus the diagnostics of the
    decoding: the provider block and the environment are not looked at,
    nothing is logged and no client is built. *)
Theorem Configure_decode_error (req : ConfigureRequest)
    (env : gmap string string) (w0 : World) :
  diag.HasError (Config_Get req).2 = true ->
  Configure' req env w0 = Return (add_Diagnostics w0 (Config_Get req).2).
Proof.
  intros H. rewrite Configure_run. cbn zeta.
  cbn [add_Diagnostics resp Diagnostics].
  now rewrite diag_facts.HasError_Append, H, orb_true_r.
Qed.

(** X9. The client [Configure] builds.  For a provider block without an
    unknown attribute, with both selected values non-empty and a server
    URL the parser accepts once normalised, the two client fields hold the
    client made of: the host of the parsed URL, its path followed by the
    base path of the API, its scheme as the only scheme, a ten-second
    timeout, the transport of C10 and the header
    [Authorization: Token <selected API token>].  The diagnostics are the
    trailing-slash warning when slashes were stripped, and nothing
    otherwise. *)
Theorem Configure_client (config : NetboxModel) (env : gmap string string)
    (parsedURL : URL) (urlParseError : option string) :
  any_unknown config = false ->
  selected (ServerUrl config) env "NETBOX_SERVER_URL" <> "" ->
  selected (ApiToken config) env "NETBOX_API_TOKEN" <> "" ->
  urlx_Parse (normalized config env) = (Some parsedURL, urlParseError) ->
  exists w,
    Configure' (decoded config) env World0 = Next tt w /\
    DataSourceData (resp w) =
      Some (client_for' parsedURL
              (selected (ApiToken config) env "NETBOX_API_TOKEN")) /\
    ResourceData (resp w) =
      Some (client_for' parsedURL
              (selected (ApiToken config) env "NETBOX_API_TOKEN")) /\
    Diagnostics (resp w) =
      (if selected_strip (StripTrailingSlashesFromUrl config) env &&
          strings.HasSuffix
            (selected (ServerUrl config) env "NETBOX_SERVER_URL") "/"
       then [Stripped] else []).
Proof.
  intros Hu Hs Ht Hp. rewrite Configure_cases. cbn zeta.
  cbn [decoded Config_Get fst snd add_Diagnostics World0 resp Diagnostics
       diag.Append diag.HasError existsb].
  rewrite Hu, (eqb_empty_false _ Hs), (eqb_empty_false _ Ht). cbn [orb].
  match goal with
  | |- context [bootstrap ?p ?q ?r ?cfg ?w] =>
      pose proof (bootstrap_result cfg w) as B
  end.
  cbn [serverUrl apiToken] in B. rewrite Hp in B. cbn [fst] in B.
  destruct B as [w' [-> (Hd & H1 & H2)]].
  exists w'. rewrite Hd. repeat split; try assumption.
  now destruct (_ && _).
Qed.

(** X10. The three ways [Configure] ends on a request that decodes without
    diagnostics, by its inputs.  It returns early exactly when an
    attribute is unknown or a selected value is empty.  It finishes exactly
    when neither is the case and the parser gives a URL for the normalised
    server URL, and it panics exactly when neither is the case and the
    parser gives nil. *)
Theorem Configure_outcome_by_input (config : NetboxModel)
    (env : gmap string string) :
  let s := selected (ServerUrl config) env "NETBOX_SERVER_URL" in
  let t := selected (ApiToken config) env "NETBOX_API_TOKEN" in
  let valid := any_unknown config = false /\ s <> "" /\ t <> "" in
  ((exists w, Configure' (decoded config) env World0 = Return w) <->
   ~ valid) /\
  ((exists w, Configure' (decoded config) env World0 = Next tt w) <->
   valid /\ (urlx_Parse (normalized config env)).1 <> None) /\
  ((exists msg w, Configure' (decoded config) env World0 = Panic msg w) <->
   valid /\ (urlx_Parse (normalized config env)).1 = None).
Proof.
  cbn zeta. rewrite Configure_cases. cbn zeta.
  cbn [decoded Config_Get fst snd add_Diagnostics World0 resp Diagnostics
       diag.Append diag.HasError existsb].
  assert (Hcase :
    forall K : Res unit,
      (any_unknown config = true \/
       selected (ServerUrl config) env "NETBOX_SERVER_URL" = "" \/
       selected (ApiToken config) env "NETBOX_API_TOKEN" = "") ->
      (exists w, K = Return w) ->
      let valid :=
        any_unknown config = false /\
        selected (ServerUrl config) env "NETBOX_SERVER_URL" <> "" /\
        selected (ApiToken config) env "NETBOX_API_TOKEN" <> "" in
      ((exists w, K = Return w) <-> ~ valid) /\
      ((exists w, K = Next tt w) <->
       valid /\ (urlx_Parse (normalized config env)).1 <> None) /\
      ((exists msg w, K = Panic msg w) <->
       valid /\ (urlx_Parse (normalized config env)).1 = None)).
  { intros K Hbad [w ->]. cbn zeta.
    assert (Hnv : ~ (any_unknown config = false /\
                     selected (ServerUrl config) env "NETBOX_SERVER_URL"
                       <> "" /\
                     selected (ApiToken config) env "NETBOX_API_TOKEN"
                       <> "")).
    { intros (Hu & Hs & Ht). destruct Hbad as [H|[H|H]]; congruence. }
    split; [split; [easy|eauto]|].
    split; (split; [|intros [Hv _]; contradiction]).
    - intros [w' H]. discriminate H.
    - intros (m & w' & H). discriminate H. }
  destruct (any_unknown config) eqn:U.
  { apply Hcase; eauto. }
  destruct (String.eqb (selected (ServerUrl config) env _) "") eqn:Es.
  { apply String.eqb_eq in Es. apply Hcase; eauto. }
  destruct (String.eqb (selected (ApiToken config) env _) "") eqn:Et.
  { apply String.eqb_eq in Et. rewrite orb_true_r. apply Hcase; eauto. }
  apply String.eqb_neq in Es, Et. cbn [orb]. clear Hcase.
  match goal with
  | |- context [bootstrap ?p ?q ?r ?cfg ?w] =>
      pose proof (bootstrap_result cfg w) as B
  end.
  cbn [serverUrl] in B.
  destruct (urlx_Parse (normalized config env)).1 as [u|];
    destruct B as [w' [-> _]].
  - split; [split; [intros [w H]; discriminate H|intros H; now destruct H]|].
    split; (split; [|intros [_ H]; try discriminate H; eauto]).
    + intros _. easy.
    + intros (m & w & H). discriminate H.
  - split; [split; [intros [w H]; discriminate H|intros H; now destruct H]|].
    split; (split; [|intros [_ H]; try (now destruct H); eauto]).
    + intros [w H]. discriminate H.
    + intros _. easy.
Qed.

(** X12. The second half of [Configure] never records a diagnostic and
    never returns early: whatever the settings and the state, it leaves the
    diagnostics as they were and ends by storing a client or by the
    panic. *)
Theorem bootstrap_adds_no_diagnostic (cfg : ResolvedConfig) (w : World) :
  diagnostics_of (bootstrap' cfg w) = Diagnostics (resp w) /\
  (forall w', bootstrap' cfg w <> Return w') /\
  bootstrap' cfg w <> Diverge.
Proof.
  pose proof (bootstrap_result cfg w) as B.
  destruct (urlx_Parse (serverUrl cfg)).1 as [u|].
  - destruct B as [w' [-> (Hd & _)]]. cbn [diagnostics_of]. easy.
  - destruct B as [w' [-> Hr]]. cbn [diagnostics_of]. now rewrite Hr.
Qed.

(** X13. The API token is not logged: two provider blocks that differ only
    in their (non-empty) API token leave the same log and the same
    diagnostics, for every request, environment and state. *)
Theorem Configure_token_not_logged (url : attr string) (strip : attr bool)
    (diags : list Diagnostic) (env : gmap string string) (w0 : World)
    (t1 t2 : string) :
  t1 <> "" -> t2 <> "" ->
  let run t :=
    Configure'
      {| Config_Get := ({| ApiToken := Known t; ServerUrl := url;
                           StripTrailingSlashesFromUrl := strip |},
                        diags) |} env w0 in
  logged_of (run t1) = logged_of (run t2) /\
  diagnostics_of (run t1) = diagnostics_of (run t2).
Proof.
  intros H1 H2. cbv beta zeta. rewrite !Configure_cases. cbn zeta.
  cbn [Config_Get fst snd ApiToken ServerUrl StripTrailingSlashesFromUrl].
  rewrite !selected_Known.
  change (any_unknown {| ApiToken := Known t1; ServerUrl := url;
                         StripTrailingSlashesFromUrl := strip |})
    with (IsUnknown url || false || IsUnknown strip).
  change (any_unknown {| ApiToken := Known t2; ServerUrl := url;
                         StripTrailingSlashesFromUrl := strip |})
    with (IsUnknown url || false || IsUnknown strip).
  destruct (diag.HasError _); [easy|].
  destruct (IsUnknown url || false || IsUnknown strip); [easy|].
  rewrite (eqb_empty_false _ H1), (eqb_empty_false _ H2), !orb_false_r.
  unfold missing_diagnostics.
  rewrite (eqb_empty_false _ H1), (eqb_empty_false _ H2).
  destruct (String.eqb (selected url env _) ""); [easy|].
  rewrite !bootstrap_run. cbn zeta.
  cbn [serverUrl apiToken].
  change (normalized {| ApiToken := Known t1; ServerUrl := url;
                        StripTrailingSlashesFromUrl := strip |} env)
    with (normalized {| ApiToken := Known t2; ServerUrl := url;
                        StripTrailingSlashesFromUrl := strip |} env).
  now destruct (urlx_Parse _).1.
Qed.

End Configure_facts.

(** * The resource *)

Section Resource_facts.

Import netboxResource.

Variable Raw : Type.
Variable tfsdk_Get :
  Raw -> netboxResourceModel -> netboxResourceModel * list Diagnostic.
Variable tfsdk_Set : Raw -> netboxResourceModel -> Raw * list Diagnostic.

Local Abbreviation Create' := (Create Raw tfsdk_Get tfsdk_Set).
Local Abbreviation Read' := (Read Raw tfsdk_Get tfsdk_Set).
Local Abbreviation Update' := (Update Raw tfsdk_Get tfsdk_Set).
Local Abbreviation Delete' := (Delete Raw tfsdk_Get).
Local Abbreviation State_Set' := (State_Set Raw tfsdk_Set).

(** X14. No operation of the resource writes the state once the response
    holds an error, whether the error was there before the call or comes
    from decoding the plan or the prior state: [Create], [Read] and
    [Update] then return the response with the diagnostics of the decoding
    appended and the state as it was.  [Delete] does so on every input. *)
Theorem write_blocked_by_error (src : Raw) (resp : Response Raw) :
  let resp' := Append Raw resp (tfsdk_Get src zero).2 in
  Delete' src resp = resp' /\
  (diag.HasError (Diagnostics resp') = true ->
   Create' src resp = resp' /\
   Read' src resp = resp' /\
   Update' src resp = resp' /\
   State resp' = State resp).
Proof.
  cbv zeta. unfold Create, Read, Update, Delete.
  destruct (tfsdk_Get src zero) as [data diags]. cbn [snd].
  split.
  - now destruct (diag.HasError _).
  - intros H. now rewrite H.
Qed.

(** What [Create] writes when the response holds no error after the plan
    has been decoded. *)
Lemma Create_run (plan : Raw) (resp : Response Raw) :
  diag.HasError
    (Diagnostics (Append Raw resp (tfsdk_Get plan zero).2)) = false ->
  Create' plan resp =
  State_Set' (Append Raw resp (tfsdk_Get plan zero).2)
    {| Id := Known "example-id" |}.
Proof.
  unfold Create. destruct (tfsdk_Get plan zero) as [data diags].
  cbn [snd]. intros H. now rewrite H.
Qed.

(** X15. [Create] throws the planned values away and writes the model with
    [Id = "example-id"]; a [Read] of the state it leaves changes nothing.
    This holds for a framework in which a state that has been written
    decodes to the model written, and in which writing the same model
    again changes nothing and reports nothing. *)
Theorem Read_after_Create (plan : Raw) (resp : Response Raw) :
  (forall st m target,
      tfsdk_Get (tfsdk_Set st m).1 target = (m, [])) ->
  (forall st m,
      tfsdk_Set (tfsdk_Set st m).1 m = ((tfsdk_Set st m).1, [])) ->
  diag.HasError
    (Diagnostics (Append Raw resp (tfsdk_Get plan zero).2)) = false ->
  State (Create' plan resp) =
    (tfsdk_Set (State resp) {| Id := Known "example-id" |}).1 /\
  Read' (State (Create' plan resp)) (Create' plan resp) = Create' plan resp.
Proof.
  intros Hget Hset H. rewrite (Create_run _ _ H).
  unfold State_Set. cbn [Append State Diagnostics].
  destruct (tfsdk_Set (State resp) {| Id := Known "example-id" |})
    as [state diags] eqn:E.
  cbn [Append State Diagnostics fst]. split; [reflexivity|].
  assert (Hs : state =
               (tfsdk_Set (State resp) {| Id := Known "example-id" |}).1)
    by now rewrite E.
  clear H. unfold Read, Append. cbn [State Diagnostics].
  rewrite Hs at 1. rewrite Hget. cbn [diag.Append].
  destruct (diag.HasError _); [reflexivity|].
  unfold State_Set, Append. cbn [State Diagnostics].
  rewrite Hs at 1. rewrite Hset. cbn [diag.Append]. now rewrite <- Hs.
Qed.

End Resource_facts.

(** ** The further properties at concrete inputs *)

Lemma resolve_strip_disabled_witness :
  selected_strip Null
    {["NETBOX_STRIP_TRAILING_SLASHES_FROM_URL" := "false"]} = false /\
  resolve {| ApiToken := Known "0123456789abcdef";
             ServerUrl := Known "https://host///";
             StripTrailingSlashesFromUrl := Null |}
    {["NETBOX_STRIP_TRAILING_SLASHES_FROM_URL" := "false"]} World0
  = Next {| serverUrl := "https://host///";
            apiToken := "0123456789abcdef";
            stripTrailingSlashesFromUrl := false |} World0.
Proof.
  split; [reflexivity|].
  apply (resolve_strip_disabled
           {| ApiToken := Known "0123456789abcdef";
              ServerUrl := Known "https://host///";
              StripTrailingSlashesFromUrl := Null |}
           {["NETBOX_STRIP_TRAILING_SLASHES_FROM_URL" := "false"]});
    [reflexivity | discriminate | discriminate | reflexivity].
Defined.

Lemma resolve_success_invariants_witness :
  resolve {| ApiToken := Null; ServerUrl := Known "https://host/";
             StripTrailingSlashesFromUrl := Null |}
    {["NETBOX_API_TOKEN" := "0123456789abcdef"]} World0
  = Next {| serverUrl := "https://host";
            apiToken := "0123456789abcdef";
            stripTrailingSlashesFromUrl := true |}
         (with_Diagnostics [Stripped]) /\
  diag.HasError [Stripped] = false /\
  "0123456789abcdef" <> "" /\
  strings.HasSuffix "https://host" "/" = false.
Proof.
  assert (Hrun :
            resolve {| ApiToken := Null; ServerUrl := Known "https://host/";
                       StripTrailingSlashesFromUrl := Null |}
              {["NETBOX_API_TOKEN" := "0123456789abcdef"]} World0
            = Next {| serverUrl := "https://host";
                      apiToken := "0123456789abcdef";
                      stripTrailingSlashesFromUrl := true |}
                   (with_Diagnostics [Stripped]))
    by reflexivity.
  split; [exact Hrun|].
  destruct (resolve_success_invariants _ _ _ _ _ Hrun)
    as (_ & He & _ & Ht & _ & Hs & _).
  split; [exact He|]. split; [exact Ht|]. exact (Hs eq_refl).
Defined.

Lemma resolve_stable_witness :
  resolve {| ApiToken := Null; ServerUrl := Known "https://host/";
             StripTrailingSlashesFromUrl := Null |}
    {["NETBOX_API_TOKEN" := "0123456789abcdef"]} World0
  = Next {| serverUrl := "https://host";
            apiToken := "0123456789abcdef";
            stripTrailingSlashesFromUrl := true |}
         (with_Diagnostics [Stripped]) /\
  resolve {| ApiToken := Known "0123456789abcdef";
             ServerUrl := Known "https://host";
             StripTrailingSlashesFromUrl := Known true |} ∅ World0
  = Next {| serverUrl := "https://host";
            apiToken := "0123456789abcdef";
            stripTrailingSlashesFromUrl := true |} World0.
Proof.
  split; [reflexivity|].
  apply (resolve_stable
           {| ApiToken := Null; ServerUrl := Known "https://host/";
              StripTrailingSlashesFromUrl := Null |}
           {["NETBOX_API_TOKEN" := "0123456789abcdef"]} ∅ World0
           (with_Diagnostics [Stripped])
           {| serverUrl := "https://host";
              apiToken := "0123456789abcdef";
              stripTrailingSlashesFromUrl := true |});
    [reflexivity | discriminate].
Defined.

Lemma resolve_env_frame_witness :
  same_NETBOX_variables
    {["NETBOX_API_TOKEN" := "0123456789abcdef"]}
    {["NETBOX_API_TOKEN" := "0123456789abcdef"; "HOME" := "/root"]} /\
  resolve {| ApiToken := Null; ServerUrl := Known "https://host/";
             StripTrailingSlashesFromUrl := Null |}
    {["NETBOX_API_TOKEN" := "0123456789abcdef"]} World0
  = resolve {| ApiToken := Null; ServerUrl := Known "https://host/";
               StripTrailingSlashesFromUrl := Null |}
      {["NETBOX_API_TOKEN" := "0123456789abcdef"; "HOME" := "/root"]}
      World0.
Proof.
  assert (H : same_NETBOX_variables
                {["NETBOX_API_TOKEN" := "0123456789abcdef"]}
                {["NETBOX_API_TOKEN" := "0123456789abcdef";
                  "HOME" := "/root"]})
    by (repeat split; vm_compute; reflexivity).
  split; [exact H|].
  exact (resolve_env_frame _ _ _ World0 H).
Defined.

Lemma Configure_keeps_diagnostics_witness :
  In decode_warning [decode_warning] /\
  In decode_warning
     (diagnostics_of
        (Sample.Configure
           {| Config_Get :=
                ({| ApiToken := Null; ServerUrl := Known "https://host/";
                    StripTrailingSlashesFromUrl := Null |},
                 [decode_warning; decode_warning]) |} ∅ World0)) /\
  List.NoDup (Diagnostics (resp World0)) /\
  List.NoDup
    (diagnostics_of
       (Sample.Configure
          {| Config_Get :=
               ({| ApiToken := Null; ServerUrl := Known "https://host/";
                   StripTrailingSlashesFromUrl := Null |},
                [decode_warning; decode_warning]) |} ∅ World0)).
Proof.
  destruct (Configure_keeps_diagnostics
              Sample.urlx_Parse Sample.TLSTransport Sample.DefaultBasePath
              {| Config_Get :=
                   ({| ApiToken := Null; ServerUrl := Known "https://host/";
                       StripTrailingSlashesFromUrl := Null |},
                    [decode_warning; decode_warning]) |} ∅ World0)
    as [Hin Hnodup].
  split; [now left|].
  split; [apply Hin; right; now left|].
  split; [constructor|].
  apply Hnodup. constructor.
Defined.

Lemma Configure_decode_error_witness :
  diag.HasError [decode_error] = true /\
  Sample.Configure
    {| Config_Get :=
         ({| ApiToken := Known "0123456789abcdef";
             ServerUrl := Known "https://host";
             StripTrailingSlashesFromUrl := Null |},
          [decode_error]) |} ∅ World0
  = Return (with_Diagnostics [decode_error]).
Proof.
  split; [reflexivity|].
  apply (Configure_decode_error
           Sample.urlx_Parse Sample.TLSTransport Sample.DefaultBasePath
           {| Config_Get :=
                ({| ApiToken := Known "0123456789abcdef";
                    ServerUrl := Known "https://host";
                    StripTrailingSlashesFromUrl := Null |},
                 [decode_error]) |} ∅ World0).
  reflexivity.
Defined.

Lemma Configure_client_witness :
  Sample.urlx_Parse "https://demo.netbox.dev/netbox" =
    (Some {| Scheme := "https"; Host := "demo.netbox.dev";
             Path_ := "/netbox" |}, None) /\
  exists w,
    Sample.Configure
      (decoded {| ApiToken := Known "0123456789abcdef";
                  ServerUrl := Known "https://demo.netbox.dev/netbox/";
                  StripTrailingSlashesFromUrl := Null |}) ∅ World0
    = Next tt w /\
    ResourceData (resp w) =
      Some (netboxclient_New
              {| rt_Host := "demo.netbox.dev";
                 rt_BasePath := "/netbox/api";
                 rt_Schemes := ["https"];
                 rt_client :=
                   {| Transport :=
                        Some {| TLSClientConfig :=
                                  {| InsecureSkipVerify := true |} |};
                      Timeout := 10000000000 |};
                 DefaultAuthentication :=
                   Some (APIKeyAuth "Authorization" "header"
                           "Token 0123456789abcdef");
                 logger_set := true |}) /\
    Diagnostics (resp w) = [Stripped].
Proof.
  split; [reflexivity|].
  destruct (Configure_client
              Sample.urlx_Parse Sample.TLSTransport Sample.DefaultBasePath
              {| ApiToken := Known "0123456789abcdef";
                 ServerUrl := Known "https://demo.netbox.dev/netbox/";
                 StripTrailingSlashesFromUrl := Null |} ∅
              {| Scheme := "https"; Host := "demo.netbox.dev";
                 Path_ := "/netbox" |} None)
    as [w (Hrun & _ & Hrd & Hd)];
    [reflexivity | discriminate | discriminate | reflexivity |].
  exists w. split; [exact Hrun|]. split; [exact Hrd|exact Hd].
Defined.

Lemma Configure_token_not_logged_witness :
  "0123456789abcdef" <> "" /\ "fedcba9876543210" <> "" /\
  logged_of
    (Sample.Configure
       (decoded {| ApiToken := Known "0123456789abcdef";
                   ServerUrl := Known "https://host";
                   StripTrailingSlashesFromUrl := Null |}) ∅ World0)
  = logged_of
      (Sample.Configure
         (decoded {| ApiToken := Known "fedcba9876543210";
                     ServerUrl := Known "https://host";
                     StripTrailingSlashesFromUrl := Null |}) ∅ World0).
Proof.
  split; [discriminate|]. split; [discriminate|].
  apply (Configure_token_not_logged
           Sample.urlx_Parse Sample.TLSTransport Sample.DefaultBasePath
           (Known "https://host") Null [] ∅ World0
           "0123456789abcdef" "fedcba9876543210");
    discriminate.
Defined.

Lemma write_blocked_by_error_witness :
  diag.HasError [decode_error] = true /\
  netboxResource.Create (option netboxResource.netboxResourceModel)
    netboxResource.sample_Get netboxResource.sample_Set None
    {| netboxResource.Diagnostics := []; netboxResource.State := None |}
  = {| netboxResource.Diagnostics := [decode_error];
       netboxResource.State := None |}.
Proof.
  split; [reflexivity|].
  apply (write_blocked_by_error
           (option netboxResource.netboxResourceModel)
           netboxResource.sample_Get netboxResource.sample_Set None
           {| netboxResource.Diagnostics := [];
              netboxResource.State := None |}).
  reflexivity.
Defined.

Lemma Read_after_Create_witness :
  netboxResource.State
    (netboxResource.Create (option netboxResource.netboxResourceModel)
       netboxResource.sample_Get netboxResource.sample_Set
       (Some {| netboxResource.Id := Known "planned" |})
       {| netboxResource.Diagnostics := []; netboxResource.State := None |})
  = Some {| netboxResource.Id := Known "example-id" |}.
Proof.
  apply (Read_after_Create
           (option netboxResource.netboxResourceModel)
           netboxResource.sample_Get netboxResource.sample_Set
           (Some {| netboxResource.Id := Known "planned" |})
           {| netboxResource.Diagnostics := [];
              netboxResource.State := None |});
    reflexivity.
Defined.
